(** * Batch19_APDP-1: the sales dashboard's aggregation strategies, the
    dynamic-chart callback and the singleton logger.

    The Python sources ([DSA_erp.py], [Singleton.py]) are embedded shallowly.
    Python values are a tagged union ([pyobj]); raising code returns a
    [result]; the strategies, which assign columns of the caller's DataFrame,
    are written in a state-and-exception monad over that DataFrame.  The
    pandas operations the strategies call (column lookup and assignment,
    [to_datetime], [groupby(...).sum().reset_index()], [Series.apply],
    [DataFrame.corr]) are modelled in the section [pandas model].

    Numbers.  An [int64] cell is a [Z], and [int64] sums wrap around.  A
    finite [float64] is represented by the exact rational it denotes
    (canonical, [Qc]); binary64 rounding and overflow are not modelled, so
    nothing below is proved about sums of floats.  The correlation, which
    takes a square root, is computed over the real numbers. *)

From Stdlib Require Import List ZArith QArith Qcanon Bool Ascii String Lia.
From Stdlib Require Import Permutation Sorted.
From Stdlib Require Import Reals Lra Qreals.
Import ListNotations.

Local Open Scope string_scope.
Local Open Scope list_scope.
Local Open Scope Z_scope.

(* ================================================================== *)
(** * Python exceptions and results *)

Module Py.

(** The exception classes the modelled code can raise. *)
Inductive exn : Type :=
| KeyError (key : string)
| AttributeError
| ValueError
| TypeError
| RuntimeError (msg : string).

Inductive result (A : Type) : Type :=
| Ok (a : A)
| Raise (e : exn).
Arguments Ok {A} a.
Arguments Raise {A} e.

Definition bind {A B} (r : result A) (k : A -> result B) : result B :=
  match r with
  | Ok a => k a
  | Raise e => Raise e
  end.

(** [try: r except Exception: h] *)
Definition try_except {A} (r : result A) (h : A) : A :=
  match r with
  | Ok a => a
  | Raise _ => h
  end.

Fixpoint mapM {A B} (f : A -> result B) (l : list A) : result (list B) :=
  match l with
  | [] => Ok []
  | x :: xs =>
      bind (f x) (fun y => bind (mapM f xs) (fun ys => Ok (y :: ys)))
  end.

End Py.
Import Py.

Declare Scope py_scope.
Delimit Scope py_scope with py.
Notation "x <- c ;; k" := (Py.bind c (fun x => k))
  (at level 61, c at next level, right associativity) : py_scope.

(* ================================================================== *)
(** * Python values *)

(** [pandas.Timestamp]: only the calendar date is tracked, the strategies
    read nothing but the year and the month. *)
Record Timestamp : Type := mkTimestamp { year : Z; month : Z; day : Z }.

(** A Python [float]: a finite value, an infinity or NaN. *)
Inductive pyfloat : Type :=
| FFin (q : Qc)
| FInf (negative : bool)
| FNaN.

(** The cells of a DataFrame and the values of a JSON record. *)
Inductive pyobj : Type :=
| OStr (s : string)
| OInt (n : Z)
| OFloat (x : pyfloat)
| OBool (b : bool)
| ONone
| OTimestamp (t : Timestamp)
| ONaT.

Definition NaN : pyobj := OFloat FNaN.

Definition Timestamp_eq_dec (a b : Timestamp) : {a = b} + {a <> b}.
Proof. decide equality; apply Z.eq_dec. Defined.

Definition pyfloat_eq_dec (a b : pyfloat) : {a = b} + {a <> b}.
Proof. decide equality; [apply Qc_eq_dec | apply bool_dec]. Defined.

Definition pyobj_eq_dec (a b : pyobj) : {a = b} + {a <> b}.
Proof.
  decide equality;
    [apply string_dec | apply Z.eq_dec | apply pyfloat_eq_dec
     | apply bool_dec | apply Timestamp_eq_dec].
Defined.

Definition obj_eqb (a b : pyobj) : bool :=
  if pyobj_eq_dec a b then true else false.

Definition float_of_int (n : Z) : pyfloat := FFin (Q2Qc (inject_Z n)).

(** [pandas.isna] on a scalar. *)
Definition isna (v : pyobj) : bool :=
  match v with
  | ONone | ONaT | OFloat FNaN => true
  | _ => false
  end.

(* ================================================================== *)
(** * Singleton.py *)

Module Singleton.

(** Objects are identified by their address. *)
Definition ref : Type := nat.

(** The state the module touches: the class attribute [Logger._instance],
    the allocator, and what has been printed. *)
Record state : Type := mkState {
  _instance : option ref;
  next_ref : ref;
  stdout : list string
}.

Definition initial : state :=
  {| _instance := None; next_ref := O; stdout := [] |}.

(** [cls.__new__(cls)]: a fresh object. *)
Definition __new__ (s : state) : ref * state :=
  (next_ref s,
   {| _instance := _instance s; next_ref := S (next_ref s);
      stdout := stdout s |}).

(** [Logger.__init__] *)
Definition __init__ (self : ref) (s : state) : result unit * state :=
  (Raise (RuntimeError "Call instance() instead"), s).

(** [Logger()]: [type.__call__] allocates with [__new__], then runs
    [__init__] on the new object. *)
Definition Logger (s : state) : result ref * state :=
  let (obj, s1) := __new__ s in
  match __init__ obj s1 with
  | (Ok _, s2) => (Ok obj, s2)
  | (Raise e, s2) => (Raise e, s2)
  end.

(** [Logger.instance()] *)
Definition instance (s : state) : result ref * state :=
  match _instance s with
  | None =>
      let s1 := {| _instance := _instance s; next_ref := next_ref s;
                   stdout := stdout s ++ ["Creating new instance"] |} in
      let (obj, s2) := __new__ s1 in
      let s3 := {| _instance := Some obj; next_ref := next_ref s2;
                   stdout := stdout s2 |} in
      (Ok obj, s3)
  | Some obj => (Ok obj, s)
  end.

(** The two ways a client can ask for a logger. *)
Inductive call : Type := CallLogger | CallInstance.

Definition step (c : call) (s : state) : result ref * state :=
  match c with
  | CallLogger => Logger s
  | CallInstance => instance s
  end.

(** Run a sequence of calls, collecting each call with its outcome. *)
Fixpoint run (cs : list call) (s : state)
  : list (call * result ref) * state :=
  match cs with
  | [] => ([], s)
  | c :: cs' =>
      let (r, s1) := step c s in
      let (rs, s2) := run cs' s1 in
      ((c, r) :: rs, s2)
  end.

End Singleton.

(* ================================================================== *)
(** * Python strings and [float(str)]

    Strings are taken to be ASCII. *)

Module PyStr.

(** [s.replace(old, new)] for a one-character [old]. *)
Fixpoint replace (s : string) (old : ascii) (new : string) : string :=
  match s with
  | EmptyString => EmptyString
  | String c rest =>
      if Ascii.eqb c old then (new ++ replace rest old new)%string
      else String c (replace rest old new)
  end.

(** [str.isspace] on an ASCII character: TAB..CR, FS..US and the space. *)
Definition is_space (c : ascii) : bool :=
  let n := nat_of_ascii c in
  ((9 <=? n) && (n <=? 13) || (28 <=? n) && (n <=? 32))%nat.

Fixpoint lstrip (l : list ascii) : list ascii :=
  match l with
  | c :: rest => if is_space c then lstrip rest else l
  | [] => []
  end.

(** [s.strip()] *)
Definition strip (s : string) : string :=
  string_of_list_ascii
    (rev (lstrip (rev (lstrip (list_ascii_of_string s))))).

Definition digit (c : ascii) : option Z :=
  let n := nat_of_ascii c in
  if ((48 <=? n) && (n <=? 57))%nat then Some (Z.of_nat n - 48) else None.

(** After a digit: further digits, each optionally preceded by one
    underscore.  Returns the digits read and what follows them. *)
Fixpoint digits_tail (l : list ascii) : list Z * list ascii :=
  match l with
  | [] => ([], [])
  | c :: rest =>
      match digit c with
      | Some d => let (ds, r) := digits_tail rest in (d :: ds, r)
      | None =>
          if Ascii.eqb c "_" then
            match rest with
            | c2 :: rest2 =>
                match digit c2 with
                | Some d => let (ds, r) := digits_tail rest2 in (d :: ds, r)
                | None => ([], l)
                end
            | [] => ([], l)
            end
          else ([], l)
      end
  end.

(** [digitpart ::= digit (["_"] digit)*] *)
Definition digitpart (l : list ascii) : option (list Z * list ascii) :=
  match l with
  | c :: _ =>
      match digit c with
      | Some _ => Some (digits_tail l)
      | None => None
      end
  | [] => None
  end.

(** [number ::= [digitpart] "." digitpart | digitpart ["."]]: the digits
    before and after the point. *)
Definition number (l : list ascii)
  : option (list Z * list Z * list ascii) :=
  match digitpart l with
  | Some (ip, r) =>
      match r with
      | c :: r2 =>
          if Ascii.eqb c "." then
            match digitpart r2 with
            | Some (fp, r3) => Some (ip, fp, r3)
            | None => Some (ip, [], r2)
            end
          else Some (ip, [], r)
      | [] => Some (ip, [], [])
      end
  | None =>
      match l with
      | c :: r2 =>
          if Ascii.eqb c "." then
            match digitpart r2 with
            | Some (fp, r3) => Some ([], fp, r3)
            | None => None
            end
          else None
      | [] => None
      end
  end.

(** [sign ::= "+" | "-"], optional: is the sign negative, and the rest. *)
Definition sign (l : list ascii) : bool * list ascii :=
  match l with
  | c :: rest =>
      if Ascii.eqb c "-" then (true, rest)
      else if Ascii.eqb c "+" then (false, rest)
      else (false, l)
  | [] => (false, l)
  end.

(** [exponent ::= ("e" | "E") ["+" | "-"] digitpart], optional. *)
Definition exponent (l : list ascii) : option (Z * list ascii) :=
  match l with
  | c :: rest =>
      if Ascii.eqb c "e" || Ascii.eqb c "E" then
        let (neg, r) := sign rest in
        match digitpart r with
        | Some (ds, r2) =>
            let e := fold_left (fun a d => 10 * a + d) ds 0 in
            Some (if neg then - e else e, r2)
        | None => None
        end
      else Some (0, l)
  | [] => Some (0, [])
  end.

Definition lower (c : ascii) : ascii :=
  let n := nat_of_ascii c in
  if ((65 <=? n) && (n <=? 90))%nat then ascii_of_nat (n + 32) else c.

(** The rational [m * 10^k]. *)
Definition scale10 (m k : Z) : Q :=
  if 0 <=? k then inject_Z (m * 10 ^ k)
  else Qmake m (Z.to_pos (10 ^ (- k))).

(** [float(s)] for a string: surrounding whitespace is dropped, then
    [[sign] (floatnumber | "inf" | "infinity" | "nan")] is read, the
    words in any case; anything else is a [ValueError]. *)
Definition float_of_string (s : string) : result pyfloat :=
  let l := lstrip (rev (lstrip (rev (list_ascii_of_string s)))) in
  let (neg, body) := sign l in
  let word := string_of_list_ascii (map lower body) in
  if String.eqb word "inf" || String.eqb word "infinity" then Ok (FInf neg)
  else if String.eqb word "nan" then Ok FNaN
  else
    match number body with
    | Some (ip, fp, r) =>
        match exponent r with
        | Some (e, []) =>
            let m := fold_left (fun a d => 10 * a + d) (ip ++ fp) 0 in
            let q := scale10 m (e - Z.of_nat (List.length fp)) in
            Ok (FFin (Q2Qc (if neg then Qopp q else q)))
        | _ => Raise ValueError
        end
    | None => Raise ValueError
    end.

End PyStr.

(** [val.replace(old, new)]: a method of [str]; numbers, booleans and
    [None] have no such attribute, and a [Timestamp] has a [replace] that
    rejects these arguments. *)
Definition py_replace (val : pyobj) (old : ascii) (new : string)
  : result pyobj :=
  match val with
  | OStr s => Ok (OStr (PyStr.replace s old new))
  | OTimestamp _ | ONaT => Raise TypeError
  | _ => Raise AttributeError
  end.

(** [val.strip()] *)
Definition py_strip (val : pyobj) : result string :=
  match val with
  | OStr s => Ok (PyStr.strip s)
  | _ => Raise AttributeError
  end.

(** [float(val)] *)
Definition py_float (val : pyobj) : result pyobj :=
  match val with
  | OStr s => (f <- PyStr.float_of_string s ;; Ok (OFloat f))%py
  | OInt n => Ok (OFloat (float_of_int n))
  | OFloat f => Ok (OFloat f)
  | OBool b => Ok (OFloat (float_of_int (if b then 1 else 0)))
  | ONone | OTimestamp _ | ONaT => Raise TypeError
  end.

(* ================================================================== *)
(** * pandas model: DataFrames *)

(** The dtypes a column can have here. *)
Inductive dtype : Type := int64 | float64 | bool_ | datetime64 | object.

Definition dtype_eqb (a b : dtype) : bool :=
  match a, b with
  | int64, int64 | float64, float64 | bool_, bool_
  | datetime64, datetime64 | object, object => true
  | _, _ => false
  end.

Definition Series : Type := list pyobj.

(** A DataFrame with a [RangeIndex]: the number of rows and the named
    columns, in order. *)
Record DataFrame : Type := mkDataFrame {
  nrows : nat;
  columns : list (string * Series)
}.

Definition is_int (v : pyobj) : bool :=
  match v with OInt _ => true | _ => false end.
Definition is_bool (v : pyobj) : bool :=
  match v with OBool _ => true | _ => false end.
Definition is_number (v : pyobj) : bool :=
  match v with OInt _ | OFloat _ => true | _ => false end.
Definition is_number_or_None (v : pyobj) : bool :=
  match v with OInt _ | OFloat _ | ONone => true | _ => false end.
Definition is_timestamp (v : pyobj) : bool :=
  match v with OTimestamp _ => true | _ => false end.
Definition is_datetimelike (v : pyobj) : bool :=
  match v with OTimestamp _ | ONaT | ONone => true | _ => false end.

(** The dtype pandas gives a column holding these values: integers give
    [int64]; numbers, possibly with [None] or NaN among them, [float64];
    booleans [bool]; timestamps [datetime64]; anything else, and the empty
    column, [object]. *)
Definition infer_dtype (cells : Series) : dtype :=
  match cells with
  | [] => object
  | _ =>
      if forallb is_int cells then int64
      else if forallb is_number_or_None cells && existsb is_number cells
      then float64
      else if forallb is_bool cells then bool_
      else if forallb is_datetimelike cells && existsb is_timestamp cells
      then datetime64
      else object
  end.

(** Storing a value in a column of the given dtype. *)
Definition coerce (d : dtype) (v : pyobj) : pyobj :=
  match d, v with
  | float64, OInt n => OFloat (float_of_int n)
  | float64, ONone => NaN
  | datetime64, ONone => ONaT
  | _, _ => v
  end.

(** [df.columns] *)
Definition column_names (df : DataFrame) : list string :=
  map fst (columns df).

Fixpoint lookup {A} (k : string) (l : list (string * A)) : option A :=
  match l with
  | [] => None
  | (k', v) :: rest => if String.eqb k k' then Some v else lookup k rest
  end.

(** [df[col]] *)
Definition getitem (df : DataFrame) (col : string) : result Series :=
  match lookup col (columns df) with
  | Some s => Ok s
  | None => Raise (KeyError col)
  end.

Fixpoint replace_column (col : string) (s : Series)
  (l : list (string * Series)) : list (string * Series) :=
  match l with
  | [] => [(col, s)]
  | (k, v) :: rest =>
      if String.eqb col k then (k, s) :: rest
      else (k, v) :: replace_column col s rest
  end.

(** [df[col] = s]: an existing column is replaced where it stands, a new
    one is appended. *)
Definition setitem (df : DataFrame) (col : string) (s : Series) : DataFrame :=
  {| nrows := nrows df; columns := replace_column col s (columns df) |}.

(** [df[[c1, ..., cn]]]: a new frame with these columns, [KeyError] at the
    first one that is absent. *)
Definition getitem_list (df : DataFrame) (cols : list string)
  : result DataFrame :=
  (ss <- mapM (fun c => (s <- getitem df c ;; Ok (c, s))%py) cols ;;
   Ok {| nrows := nrows df; columns := ss |})%py.

(** [df.index] of a frame with a [RangeIndex]. *)
Definition index (df : DataFrame) : list Z :=
  map Z.of_nat (seq 0 (nrows df)).

(** ** [pd.DataFrame(records)] *)

(** A JSON record: a dict from column name to value. *)
Definition record : Type := list (string * pyobj).

Fixpoint add_new (seen : list string) (ks : list string) : list string :=
  match ks with
  | [] => seen
  | k :: ks' =>
      if existsb (String.eqb k) seen then add_new seen ks'
      else add_new (seen ++ [k]) ks'
  end.

(** The keys of the records, in order of first appearance. *)
Definition record_keys (rows : list record) : list string :=
  fold_left (fun seen r => add_new seen (map fst r)) rows [].

(** A record lacking the key contributes NaN. *)
Definition record_get (k : string) (r : record) : pyobj :=
  match lookup k r with
  | Some v => v
  | None => NaN
  end.

Definition DataFrame_of_records (rows : list record) : DataFrame :=
  {| nrows := List.length rows;
     columns :=
       map (fun k =>
              let cells := map (record_get k) rows in
              (k, map (coerce (infer_dtype cells)) cells))
           (record_keys rows) |}.

(* ================================================================== *)
(** * pandas model: sums and groupby *)

(** Two's-complement wrap-around of [int64] arithmetic. *)
Definition wrap64 (z : Z) : Z := (z + 2 ^ 63) mod 2 ^ 64 - 2 ^ 63.

Definition fadd (a b : pyfloat) : pyfloat :=
  match a, b with
  | FNaN, _ | _, FNaN => FNaN
  | FFin p, FFin q => FFin (p + q)%Qc
  | FInf s, FFin _ | FFin _, FInf s => FInf s
  | FInf s, FInf t => if Bool.eqb s t then FInf s else FNaN
  end.

Definition int_of (v : pyobj) : Z :=
  match v with
  | OInt n => n
  | OBool true => 1
  | _ => 0
  end.

Definition float_of (v : pyobj) : pyfloat :=
  match v with
  | OFloat f => f
  | OInt n => float_of_int n
  | _ => FNaN
  end.

Definition str_of (v : pyobj) : string :=
  match v with
  | OStr s => s
  | _ => EmptyString
  end.

Definition is_str (v : pyobj) : bool :=
  match v with OStr _ => true | _ => false end.

(** The sum of the cells of one group (or of a whole column) of a column
    of dtype [d]: integers wrap around, floats skip the missing values,
    booleans are counted, strings are concatenated and nothing sums to 0;
    timestamps, and object cells that are not all strings, cannot be
    summed. *)
Definition sum_as (d : dtype) (cells : Series) : result pyobj :=
  match d with
  | int64 | bool_ =>
      Ok (OInt (fold_left (fun a v => wrap64 (a + int_of v)) cells 0))
  | float64 =>
      Ok (OFloat (fold_left
                    (fun a v => if isna v then a else fadd a (float_of v))
                    cells (FFin (Q2Qc 0))))
  | datetime64 => Raise TypeError
  | object =>
      match cells with
      | [] => Ok (OInt 0)
      | _ =>
          if forallb is_str cells
          then Ok (OStr (fold_left (fun a v => (a ++ str_of v)%string)
                                   cells EmptyString))
          else Raise TypeError
      end
  end.


Section GroupBy.

(** Group keys of type [K]; a row whose key is missing ([None]) belongs
    to no group, as with pandas' default [dropna=True]. *)
Context {K : Type} (eqb : K -> K -> bool) (leb : K -> K -> bool).

(** Add row [i] to the group of key [k], a new group going last. *)
Fixpoint upsert (acc : list (K * list nat)) (k : K) (i : nat)
  : list (K * list nat) :=
  match acc with
  | [] => [(k, [i])]
  | (k', rows) :: rest =>
      if eqb k k' then (k', rows ++ [i]) :: rest
      else (k', rows) :: upsert rest k i
  end.

(** One pass over the key column, from row [i] on. *)
Fixpoint scan (keys : list (option K)) (i : nat)
  (acc : list (K * list nat)) : list (K * list nat) :=
  match keys with
  | [] => acc
  | None :: ks => scan ks (S i) acc
  | Some k :: ks => scan ks (S i) (upsert acc k i)
  end.

Fixpoint insert_group (g : K * list nat) (l : list (K * list nat))
  : list (K * list nat) :=
  match l with
  | [] => [g]
  | h :: t =>
      if leb (fst g) (fst h) then g :: l else h :: insert_group g t
  end.

Definition sort_groups (l : list (K * list nat)) : list (K * list nat) :=
  fold_right insert_group [] l.

(** [groupby(keys).indices], the groups in ascending key order
    ([sort=True]): each key with the positions of its rows. *)
Definition groupby (keys : list (option K)) : list (K * list nat) :=
  sort_groups (scan keys 0%nat []).

(** Specification side: the positions of the rows whose key is [k]. *)
Definition has_key (k : K) (key : option K) : bool :=
  match key with
  | Some k' => eqb k k'
  | None => false
  end.

Fixpoint rows_with_key (k : K) (keys : list (option K)) : list nat :=
  match keys with
  | [] => []
  | key :: rest =>
      let r := map S (rows_with_key k rest) in
      if has_key k key then O :: r else r
  end.



End GroupBy.

(** The cells of a column at the given row positions. *)
Definition take (s : Series) (rows : list nat) : Series :=
  map (fun i => nth i s NaN) rows.

(** [.sum()] of one selected column over the groups. *)
Definition groups_sum {K} (groups : list (K * list nat)) (s : Series)
  : result Series :=
  mapM (fun g => sum_as (infer_dtype s) (take s (snd g))) groups.

(** An order on cells for sorting group keys: within one kind the natural
    order, and across kinds numbers before text. *)
Definition float_leb (a b : pyfloat) : bool :=
  match a, b with
  | FFin p, FFin q => if Qc_eq_dec p q then true
                      else match (p ?= q)%Qc with Lt => true | _ => false end
  | FInf true, _ => true
  | _, FInf false => true
  | _, _ => false
  end.

Definition rank (v : pyobj) : Z :=
  match v with
  | OBool _ => 0
  | OInt _ | OFloat _ => 1
  | OTimestamp _ => 2
  | OStr _ => 3
  | ONone | ONaT => 4
  end.

Definition Timestamp_leb (a b : Timestamp) : bool :=
  (year a <? year b)
  || (year a =? year b)
     && ((month a <? month b) || (month a =? month b) && (day a <=? day b)).

Definition obj_leb (a b : pyobj) : bool :=
  match a, b with
  | OInt m, OInt n => m <=? n
  | OStr s, OStr t => String.leb s t
  | OFloat f, OFloat g => float_leb f g
  | OBool p, OBool q => implb p q
  | OTimestamp t, OTimestamp u => Timestamp_leb t u
  | _, _ => rank a <=? rank b
  end.

(** The key a cell contributes to a [groupby]: none when it is missing. *)
Definition key_of (v : pyobj) : option pyobj :=
  if isna v then None else Some v.

(** [df.groupby(key)[cols].sum().reset_index()]: [KeyError] for an absent
    key column, then for the first absent value column; one row per key,
    the key column first. *)
Definition groupby_sum (df : DataFrame) (key : string) (cols : list string)
  : result DataFrame :=
  (keys <- getitem df key ;;
   selected <- mapM (fun c => (s <- getitem df c ;; Ok (c, s))) cols ;;
   let groups := groupby obj_eqb obj_leb (map key_of keys) in
   sums <- mapM (fun cs => (t <- groups_sum groups (snd cs) ;;
                            Ok (fst cs, t))) selected ;;
   Ok {| nrows := List.length groups;
         columns := (key, map fst groups) :: sums |})%py.

(** ** Dates *)

(** [Series.dt.year] and [Series.dt.month] as group keys: [NaT] has
    neither.  (pandas shows these numbers as floats when the column holds a
    [NaT]; the numbers are the same.) *)
Definition year_month (v : pyobj) : option (Z * Z) :=
  match v with
  | OTimestamp t => Some (year t, month t)
  | _ => None
  end.

Definition dt_month (v : pyobj) : option Z :=
  match v with
  | OTimestamp t => Some (month t)
  | _ => None
  end.

Definition pair_eqb (a b : Z * Z) : bool :=
  (fst a =? fst b) && (snd a =? snd b).

Definition pair_leb (a b : Z * Z) : bool :=
  (fst a <? fst b) || (fst a =? fst b) && (snd a <=? snd b).

(* ================================================================== *)
(** * pandas model: correlation *)

(** The label-indexed square frame that [DataFrame.corr] returns; a missing
    entry (NaN) is [None]. *)
Record CorrMatrix : Type := mkCorrMatrix {
  corr_index : list string;
  corr_columns : list string;
  corr_values : list (list (option R))
}.

Section Correlation.

Local Open Scope R_scope.

(** The value of a cell that [numpy.isfinite] accepts. *)
Definition finite (v : pyobj) : option R :=
  match v with
  | OFloat (FFin q) => Some (Q2R q)
  | OInt n => Some (IZR n)
  | _ => None
  end.

(** The rows in which both columns hold a finite value. *)
Fixpoint complete_pairs (a b : Series) : list (R * R) :=
  match a, b with
  | u :: a', v :: b' =>
      match finite u, finite v with
      | Some p, Some q => (p, q) :: complete_pairs a' b'
      | _, _ => complete_pairs a' b'
      end
  | _, _ => []
  end.

Fixpoint Rsum (l : list R) : R :=
  match l with
  | [] => 0
  | u :: l' => u + Rsum l'
  end.

Definition mean (l : list R) : R := Rsum l / INR (List.length l).

(** The sum of the squared deviations from the mean. *)
Definition ssqdm (l : list R) : R :=
  Rsum (map (fun u => (u - mean l) * (u - mean l)) l).

(** The sum of the products of the deviations from the two means. *)
Definition covxy (obs : list (R * R)) : R :=
  Rsum (map (fun p => (fst p - mean (map fst obs))
                      * (snd p - mean (map snd obs))) obs).

(** Pearson's coefficient of the observations, [min_periods = 1]: NaN
    without observations and when the divisor is zero. *)
Definition pearson (obs : list (R * R)) : option R :=
  match obs with
  | [] => None
  | _ =>
      let divisor := sqrt (ssqdm (map fst obs) * ssqdm (map snd obs)) in
      if Req_dec_T divisor 0 then None else Some (covxy obs / divisor)
  end.



(** [df.corr()] *)
Definition corr (df : DataFrame) : CorrMatrix :=
  {| corr_index := column_names df;
     corr_columns := column_names df;
     corr_values :=
       map (fun ci =>
              map (fun cj => pearson (complete_pairs (snd ci) (snd cj)))
                  (columns df))
           (columns df) |}.

(** The entry in row [i] and column [j]. *)
Definition entry (m : CorrMatrix) (i j : nat) : option R :=
  match nth_error (corr_values m) i with
  | Some row =>
      match nth_error row j with
      | Some e => e
      | None => None
      end
  | None => None
  end.

End Correlation.

(* ================================================================== *)
(** * DSA_erp.py: the aggregation strategies *)

(** A strategy runs on the caller's DataFrame, which it may assign to, and
    returns a value or raises: a state-and-exception monad. *)
Definition M (A : Type) : Type := DataFrame -> result A * DataFrame.

Definition ret {A} (a : A) : M A := fun data => (Ok a, data).

Definition bindM {A B} (m : M A) (k : A -> M B) : M B :=
  fun data =>
    match m data with
    | (Ok a, data') => k a data'
    | (Raise e, data') => (Raise e, data')
    end.

Definition lift {A} (r : result A) : M A := fun data => (r, data).

(** [data[col]] *)
Definition read (col : string) : M Series :=
  fun data => (getitem data col, data).

(** [data[col] = s] *)
Definition assign (col : string) (s : Series) : M unit :=
  fun data => (Ok tt, setitem data col s).

(** the frame itself *)
Definition get : M DataFrame := fun data => (Ok data, data).

Declare Scope df_scope.
Delimit Scope df_scope with df.
Notation "x <- c ;; k" := (bindM c (fun x => k))
  (at level 61, c at next level, right associativity) : df_scope.
Notation "c ;;; k" := (bindM c (fun _ => k))
  (at level 61, right associativity) : df_scope.

(** What a strategy returns: a frame, or the correlation matrix. *)
Inductive Output : Type :=
| Frame (df : DataFrame)
| Matrix (m : CorrMatrix).

(** [convert_currency], the function local to
    [CorrelationAnalysis.process_data]. *)
Definition convert_currency (val : pyobj) : pyobj :=
  try_except
    (val1 <- py_replace val "," "" ;;
     val2 <- py_replace val1 "$" "" ;;
     s1 <- py_strip val2 ;;
     s2 <- py_strip val2 ;;
     if negb (String.eqb s1 "") && negb (String.eqb s2 "-")
     then py_float val2
     else Ok NaN)%py
    NaN.

Definition numeric_columns : list string :=
  ["Units Sold"; "Manufacturing Price"; "Sale Price"; "Gross Sales";
   "Discounts"; "Sales"; "Profit"].

(** [for col in cols: data[col] = data[col].apply(convert_currency)] *)
Fixpoint convert_columns (cols : list string) : M unit :=
  match cols with
  | [] => ret tt
  | col :: rest =>
      (s <- read col ;;
       assign col (map convert_currency s) ;;;
       convert_columns rest)%df
  end.

(** [pd.to_datetime] of the frame [grouped.assign(DAY=1)[['Year', 'Month',
    'DAY']]]: one timestamp per row. *)
Fixpoint assemble (ys ms ds : Series) : Series :=
  match ys, ms, ds with
  | y :: ys', m :: ms', d :: ds' =>
      OTimestamp {| year := int_of y; month := int_of m; day := int_of d |}
      :: assemble ys' ms' ds'
  | _, _, _ => []
  end.

Definition to_datetime_frame (df : DataFrame) : result Series :=
  (ys <- getitem df "Year" ;;
   ms <- getitem df "Month" ;;
   ds <- getitem df "DAY" ;;
   Ok (assemble ys ms ds))%py.

Section Strategies.

(** How [pd.to_datetime] reads a value that is neither missing nor a
    timestamp already (a date string, as a rule): a timestamp, [NaT]
    ([None] here), or an error.  The date parser is pandas', not this
    repository's. *)
Variable parse_datetime : pyobj -> result (option Timestamp).

Definition to_datetime_cell (v : pyobj) : result pyobj :=
  match v with
  | OTimestamp _ => Ok v
  | ONaT | ONone | OFloat FNaN => Ok ONaT
  | _ =>
      match parse_datetime v with
      | Ok (Some t) => Ok (OTimestamp t)
      | Ok None => Ok ONaT
      | Raise e => Raise e
      end
  end.

(** [pd.to_datetime(series)] *)
Definition to_datetime (s : Series) : result Series :=
  mapM to_datetime_cell s.

Definition SalesTrendsOverTime : M Output :=
  (date <- read "Date" ;;
   date <- lift (to_datetime date) ;;
   assign "Date" date ;;;
   date <- read "Date" ;;
   let groups := groupby pair_eqb pair_leb (map year_month date) in
   sales <- read "Sales" ;;
   total <- lift (groups_sum groups sales) ;;
   let grouped :=
     {| nrows := List.length groups;
        columns := [("Year", map (fun g => OInt (fst (fst g))) groups);
                    ("Month", map (fun g => OInt (snd (fst g))) groups);
                    ("TotalSales", total)] |} in
   ymd <- lift (getitem_list
                  (setitem grouped "DAY"
                     (repeat (OInt 1) (nrows grouped)))
                  ["Year"; "Month"; "DAY"]) ;;
   dates <- lift (to_datetime_frame ymd) ;;
   let grouped := setitem grouped "Date" dates in
   let cols :=
     "Date" :: filter (fun col => negb (String.eqb col "Date"))
                      (column_names grouped) in
   out <- lift (getitem_list grouped cols) ;;
   ret (Frame out))%df.

Definition ProfitAnalysisByCountry : M Output :=
  (data <- get ;;
   out <- lift (groupby_sum data "Country" ["Profit"]) ;;
   ret (Frame out))%df.

Definition ProductPerformance : M Output :=
  (data <- get ;;
   out <- lift (groupby_sum data "Product" ["Sales"; "Profit"]) ;;
   ret (Frame out))%df.

Definition DiscountImpactOnSales : M Output :=
  (data <- get ;;
   out <- lift (getitem_list data ["Discount Band"; "Sales"; "Profit"]) ;;
   ret (Frame out))%df.

Definition MonthlySalesDistribution : M Output :=
  (date <- read "Date" ;;
   date <- lift (to_datetime date) ;;
   assign "Date" date ;;;
   date <- read "Date" ;;
   let groups := groupby Z.eqb Z.leb (map dt_month date) in
   sales <- read "Sales" ;;
   total <- lift (groups_sum groups sales) ;;
   ret (Frame {| nrows := List.length groups;
                 columns := [("Date", map (fun g => OInt (fst g)) groups);
                             ("MonthlySales", total)] |}))%df.

Definition CountryWiseSalesDistribution : M Output :=
  (data <- get ;;
   out <- lift (groupby_sum data "Country" ["Sales"]) ;;
   ret (Frame out))%df.

Definition CorrelationAnalysis : M Output :=
  (convert_columns numeric_columns ;;;
   data <- get ;;
   sub <- lift (getitem_list data numeric_columns) ;;
   ret (Matrix (corr sub)))%df.

(** The implementations of [DataProcess]. *)
Inductive DataProcess : Type :=
| SalesTrendsOverTime_
| ProfitAnalysisByCountry_
| ProductPerformance_
| DiscountImpactOnSales_
| MonthlySalesDistribution_
| CountryWiseSalesDistribution_
| CorrelationAnalysis_.

(** [strategy.process_data(data)] *)
Definition process_data (strategy : DataProcess) : M Output :=
  match strategy with
  | SalesTrendsOverTime_ => SalesTrendsOverTime
  | ProfitAnalysisByCountry_ => ProfitAnalysisByCountry
  | ProductPerformance_ => ProductPerformance
  | DiscountImpactOnSales_ => DiscountImpactOnSales
  | MonthlySalesDistribution_ => MonthlySalesDistribution
  | CountryWiseSalesDistribution_ => CountryWiseSalesDistribution
  | CorrelationAnalysis_ => CorrelationAnalysis
  end.

Record DataProcessingContext : Type := mkContext {
  _strategy : DataProcess
}.

Definition set_strategy (ctx : DataProcessingContext)
  (strategy : DataProcess) : DataProcessingContext :=
  {| _strategy := strategy |}.

Definition process (ctx : DataProcessingContext) : M Output :=
  process_data (_strategy ctx).

End Strategies.

(** A date parser for the examples: ISO dates, [YYYY-MM-DD]. *)
Definition digits_value (l : list ascii) : option Z :=
  fold_left (fun a c =>
               match a, PyStr.digit c with
               | Some n, Some d => Some (10 * n + d)
               | _, _ => None
               end) l (Some 0).

Definition iso_date (v : pyobj) : result (option Timestamp) :=
  match v with
  | OStr s =>
      match list_ascii_of_string s with
      | [y1; y2; y3; y4; h1; m1; m2; h2; d1; d2] =>
          match digits_value [y1; y2; y3; y4], digits_value [m1; m2],
                digits_value [d1; d2] with
          | Some y, Some m, Some d =>
              if Ascii.eqb h1 "-" && Ascii.eqb h2 "-"
              then Ok (Some {| year := y; month := m; day := d |})
              else Raise ValueError
          | _, _, _ => Raise ValueError
          end
      | _ => Raise ValueError
      end
  | _ => Raise TypeError
  end.

(** ** Example data and the vocabulary of the statements *)


Definition first_of_month (k : Z * Z) : pyobj :=
  OTimestamp {| year := fst k; month := snd k; day := 1 |}.

(** The frame Sales Trend Over Time returns for these (year, month) keys
    and totals. *)
Definition trend_frame (keys : list (Z * Z)) (totals : Series) : DataFrame :=
  {| nrows := List.length keys;
     columns := [("Date", map first_of_month keys);
                 ("Year", map (fun k => OInt (fst k)) keys);
                 ("Month", map (fun k => OInt (snd k)) keys);
                 ("TotalSales", totals)] |}.


(** Sales of 100 and 50 in January 2020 and of 30 in February 2020. *)
Definition sales_2020 : DataFrame :=
  {| nrows := 3;
     columns := [("Date", [OStr "2020-01-10"; OStr "2020-01-25";
                           OStr "2020-02-03"]);
                 ("Sales", [OInt 100; OInt 50; OInt 30])] |}.

(** The invariant of a DataFrame: every column has one cell per row. *)
Definition well_formed (df : DataFrame) : Prop :=
  Forall (fun c => List.length (snd c) = nrows df) (columns df).

Definition zsum (l : list Z) : Z := fold_right Z.add 0 l.






Definition profit_by_country : DataFrame :=
  {| nrows := 3;
     columns := [("Country", [OStr "France"; OStr "Canada"; OStr "France"]);
                 ("Profit", [OInt 10; OInt 5; OInt 7])] |}.

(** The columns a strategy assigns in the caller's frame. *)
Definition assigned_columns (strategy : DataProcess) : list string :=
  match strategy with
  | SalesTrendsOverTime_ | MonthlySalesDistribution_ => ["Date"]
  | CorrelationAnalysis_ => numeric_columns
  | _ => []
  end.

(** [data'] is [data] except, possibly, for the cells of the columns
    [cols]: the same rows, the same column names in the same order, and
    every other column as it was. *)
Definition same_except (cols : list string) (data data' : DataFrame) : Prop :=
  nrows data' = nrows data
  /\ column_names data' = column_names data
  /\ forall col, ~ In col cols ->
       lookup col (columns data') = lookup col (columns data).

(** The columns a strategy reads. *)
Definition required_columns (strategy : DataProcess) : list string :=
  match strategy with
  | SalesTrendsOverTime_ | MonthlySalesDistribution_ => ["Date"; "Sales"]
  | ProfitAnalysisByCountry_ => ["Country"; "Profit"]
  | ProductPerformance_ => ["Product"; "Sales"; "Profit"]
  | DiscountImpactOnSales_ => ["Discount Band"; "Sales"; "Profit"]
  | CountryWiseSalesDistribution_ => ["Country"; "Sales"]
  | CorrelationAnalysis_ => numeric_columns
  end.


(** A dataset with Country and Profit and without Sales. *)
Definition no_sales : DataFrame :=
  {| nrows := 2;
     columns := [("Date", [OStr "2020-01-10"; OStr "2020-02-03"]);
                 ("Country", [OStr "France"; OStr "Canada"]);
                 ("Profit", [OInt 10; OInt 5])] |}.

(** The column [col] of the dataset after [convert_currency]. *)
Definition normalized (data : DataFrame) (col : string) : Series :=
  match lookup col (columns data) with
  | Some s => map convert_currency s
  | None => []
  end.

(** The frame of the seven normalized columns, of which the correlation is
    taken. *)
Definition normalized_frame (data : DataFrame) : DataFrame :=
  {| nrows := nrows data;
     columns := map (fun col => (col, normalized data col)) numeric_columns |}.



(** Three rows of currency text. *)
Definition currency_rows : DataFrame :=
  {| nrows := 3;
     columns :=
       [("Units Sold", [OStr "1"; OStr "2"; OStr "4"]);
        ("Manufacturing Price", [OStr "$3.00"; OStr "$5.00"; OStr "$3.00"]);
        ("Sale Price", [OStr "$20.00"; OStr "$20.00"; OStr "$15.00"]);
        ("Gross Sales", [OStr "$20.00"; OStr "$40.00"; OStr "$60.00"]);
        ("Discounts", [OStr " $-   "; OStr "$1.50"; OStr "$2.00"]);
        ("Sales", [OStr "$20.00"; OStr "$38.50"; OStr "$58.00"]);
        ("Profit", [OStr "$17.00"; OStr "$28.50"; OStr "$46.00"])] |}.

(** The same table with the units as numbers, as [read_csv] gives them
    when the CSV field holds plain digits. *)
Definition numeric_units : DataFrame :=
  {| nrows := 2;
     columns :=
       [("Units Sold", [OInt 10; OInt 20]);
        ("Manufacturing Price", [OStr "$3.00"; OStr "$5.00"]);
        ("Sale Price", [OStr "$20.00"; OStr "$20.00"]);
        ("Gross Sales", [OStr "$200.00"; OStr "$400.00"]);
        ("Discounts", [OStr " $-   "; OStr "$1.50"]);
        ("Sales", [OStr "$200.00"; OStr "$398.50"]);
        ("Profit", [OStr "$170.00"; OStr "$298.50"])] |}.

(* ================================================================== *)
(** * DSA_erp.py: the dynamic chart *)

Record trace : Type := mkTrace {
  x : list Z;
  y : Series;
  type : string;
  name : string
}.

Record layout_t : Type := mkLayout {
  title : string;
  xaxis_title : string;
  yaxis_title : string
}.

Record figure : Type := mkFigure {
  data : list trace;
  layout : option layout_t
}.

(** [{'data': []}] *)
Definition empty_figure : figure := {| data := []; layout := None |}.

(** The body of the loop over [selected_columns]: [data] is the list built
    so far. *)
Definition chart_step (dff : DataFrame) (data : list trace) (column : string)
  : result (list trace) :=
  (col <- getitem dff column ;;
   if existsb (dtype_eqb (infer_dtype col)) [float64; int64]
   then Ok (data ++ [ {| x := index dff; y := col;
                         type := "line"; name := column |} ])
   else Ok data)%py.

Fixpoint chart_loop (dff : DataFrame) (data : list trace)
  (selected : list string) : result (list trace) :=
  match selected with
  | [] => Ok data
  | column :: rest =>
      (data' <- chart_step dff data column ;; chart_loop dff data' rest)%py
  end.

(** [update_dynamic_chart(rows, selected_columns)]; either argument may be
    [None]. *)
Definition update_dynamic_chart (rows : option (list record))
  (selected_columns : option (list string)) : result figure :=
  match rows with
  | None => Ok empty_figure
  | Some rows =>
      let dff := DataFrame_of_records rows in
      match selected_columns with
      | None | Some [] => Ok empty_figure
      | Some selected =>
          (data <- chart_loop dff [] selected ;;
           Ok {| data := data;
                 layout := Some {| title := "Dynamic Data Chart";
                                   xaxis_title := "Index";
                                   yaxis_title := "Value" |} |})%py
      end
  end.




(* ================================================================== *)
(** * DSA_erp.py: the script that runs the strategies at start *)

(** The aggregates the module computes once, at import. *)
Record Globals : Type := mkGlobals {
  sales_trends_data : Output;
  profit_by_country_data : Output;
  product_performance_data : Output;
  discount_impact_data : Output;
  country_wise_sales_data : Output;
  correlation_analysis_data : Output
}.

(** Lines 120 to 136: six runs on the one frame [sales_data], through
    contexts that are created or given another strategy in turn. *)
Definition startup (parse : pyobj -> result (option Timestamp)) : M Globals :=
  (let data_processing_context := mkContext SalesTrendsOverTime_ in
   sales_trends <- process parse data_processing_context ;;
   let data_processing_context :=
     set_strategy data_processing_context ProfitAnalysisByCountry_ in
   profit_by_country <- process parse data_processing_context ;;
   let data_processing_context := mkContext ProductPerformance_ in
   product_performance <- process parse data_processing_context ;;
   let data_processing_context := mkContext DiscountImpactOnSales_ in
   discount_impact <- process parse data_processing_context ;;
   let data_processing_context :=
     set_strategy data_processing_context CountryWiseSalesDistribution_ in
   country_wise_sales <- process parse data_processing_context ;;
   let data_processing_context :=
     set_strategy data_processing_context CorrelationAnalysis_ in
   correlation_analysis <- process parse data_processing_context ;;
   ret {| sales_trends_data := sales_trends;
          profit_by_country_data := profit_by_country;
          product_performance_data := product_performance;
          discount_impact_data := discount_impact;
          country_wise_sales_data := country_wise_sales;
          correlation_analysis_data := correlation_analysis |})%df.

(** Specification side: the six strategies, each on a copy of its own of
    the frame, in the same order. *)
Definition independently (parse : pyobj -> result (option Timestamp))
  (data : DataFrame) : result Globals :=
  (sales_trends <- fst (process_data parse SalesTrendsOverTime_ data) ;;
   profit_by_country <-
     fst (process_data parse ProfitAnalysisByCountry_ data) ;;
   product_performance <- fst (process_data parse ProductPerformance_ data) ;;
   discount_impact <- fst (process_data parse DiscountImpactOnSales_ data) ;;
   country_wise_sales <-
     fst (process_data parse CountryWiseSalesDistribution_ data) ;;
   correlation_analysis <-
     fst (process_data parse CorrelationAnalysis_ data) ;;
   Ok {| sales_trends_data := sales_trends;
         profit_by_country_data := profit_by_country;
         product_performance_data := product_performance;
         discount_impact_data := discount_impact;
         country_wise_sales_data := country_wise_sales;
         correlation_analysis_data := correlation_analysis |})%py.

(** Two frames with the same number of rows and the same columns [cols]. *)
Definition agree_on (cols : list string) (d1 d2 : DataFrame) : Prop :=
  nrows d1 = nrows d2
  /\ forall c, In c cols -> lookup c (columns d1) = lookup c (columns d2).

(** Specification side: what Sales Trend Over Time returns once the dates
    are converted, from the dates and the lookup of the Sales column. *)
Definition trend_after (dates : Series) (sales : result Series)
  : result Output :=
  (sales <- sales ;;
   let groups := groupby pair_eqb pair_leb (map year_month dates) in
   totals <- groups_sum groups sales ;;
   Ok (Frame (trend_frame (map fst groups) totals)))%py.

(** The frame the monthly distribution returns for these months and
    totals: the months go under the name of the Date column. *)
Definition monthly_frame (months : list Z) (totals : Series) : DataFrame :=
  {| nrows := List.length months;
     columns := [("Date", map OInt months); ("MonthlySales", totals)] |}.

Definition monthly_after (dates : Series) (sales : result Series)
  : result Output :=
  (sales <- sales ;;
   let groups := groupby Z.eqb Z.leb (map dt_month dates) in
   totals <- groups_sum groups sales ;;
   Ok (Frame (monthly_frame (map fst groups) totals)))%py.

(** A dataset with the columns of every strategy. *)
Definition financials : DataFrame :=
  {| nrows := 3;
     columns :=
       [("Country", [OStr "France"; OStr "Canada"; OStr "France"]);
        ("Product", [OStr "Paseo"; OStr "Paseo"; OStr "Velo"]);
        ("Discount Band", [OStr "None"; OStr "Low"; OStr "None"]);
        ("Units Sold", [OStr "1"; OStr "2"; OStr "4"]);
        ("Manufacturing Price", [OStr "$3.00"; OStr "$5.00"; OStr "$3.00"]);
        ("Sale Price", [OStr "$20.00"; OStr "$20.00"; OStr "$15.00"]);
        ("Gross Sales", [OStr "$20.00"; OStr "$40.00"; OStr "$60.00"]);
        ("Discounts", [OStr " $-   "; OStr "$1.50"; OStr "$2.00"]);
        ("Sales", [OInt 20; OInt 38; OInt 58]);
        ("Profit", [OInt 17; OInt 28; OInt 46]);
        ("Date", [OStr "2020-01-10"; OStr "2020-01-25";
                  OStr "2021-01-03"])] |}.

(** A dataset with the first two of the seven numeric columns only. *)
Definition two_columns : DataFrame :=
  {| nrows := 2;
     columns := [("Units Sold", [OStr "1"; OStr "2"]);
                 ("Manufacturing Price", [OStr "$3.00"; OStr "$5.00"]);
                 ("Country", [OStr "France"; OStr "Canada"])] |}.


(** Is there a call of [Logger.instance()] among the calls? *)
Definition calls_instance (cs : list Singleton.call) : bool :=
  existsb (fun c => match c with
                    | Singleton.CallInstance => true
                    | Singleton.CallLogger => false
                    end) cs.

(* ================================================================== *)
(** * SOLID_SingResp.py: the orders *)

Module Orders.

(** What the class raises: the [Exception] of [pay], and the [IndexError]
    of a list read out of range. *)
Inductive exn : Type :=
| IndexError
| Exception (msg : string).

Inductive outcome (A : Type) : Type :=
| Returns (a : A)
| Raises (e : exn).
Arguments Returns {A} a.
Arguments Raises {A} e.

(** An order is identified by its address. *)
Definition ref : Type := nat.

(** [item], [quantities] and [price] are attributes of the class: one list
    each, which every order reads and appends to.  [status] is assigned on
    the instance by [pay]; an order without it reads the class's "open". *)
Record state : Type := mkState {
  item : list string;
  quantities : list Z;
  price : list Z;
  status : list (ref * string);
  stdout : list string
}.

Definition initial : state :=
  {| item := []; quantities := []; price := []; status := [];
     stdout := [] |}.

(** [self.status] *)
Definition get_status (self : ref) (s : state) : string :=
  match find (fun p => Nat.eqb (fst p) self) (status s) with
  | Some p => snd p
  | None => "open"
  end.

(** [self.add_item(name, quantity, price)] *)
Definition add_item (self : ref) (name : string) (quantity price_ : Z)
  (s : state) : state :=
  {| item := item s ++ [name];
     quantities := quantities s ++ [quantity];
     price := price s ++ [price_];
     status := status s;
     stdout := stdout s |}.

(** The loop of [total_price], from index [i], [n] rounds to go. *)
Fixpoint total_from (i n : nat) (qs ps : list Z) (total : Z) : outcome Z :=
  match n with
  | O => Returns total
  | S n' =>
      match nth_error qs i, nth_error ps i with
      | Some q, Some p => total_from (S i) n' qs ps (total + q * p)
      | _, _ => Raises IndexError
      end
  end.

(** [self.total_price()] *)
Definition total_price (self : ref) (s : state) : outcome Z :=
  total_from 0 (List.length (price s)) (quantities s) (price s) 0.

Definition paid (self : ref) (line : string) (security_code : string)
  (s : state) : state :=
  {| item := item s; quantities := quantities s; price := price s;
     status := (self, "paid") :: status s;
     stdout := stdout s
               ++ [line;
                   ("verifying security code: " ++ security_code)%string] |}.

(** [self.pay(payment_type, security_code)] *)
Definition pay (self : ref) (payment_type security_code : string)
  (s : state) : outcome unit * state :=
  if String.eqb payment_type "debit" then
    (Returns tt, paid self "processing debit payment" security_code s)
  else if String.eqb payment_type "credit" then
    (Returns tt, paid self "processing credit payment" security_code s)
  else
    (Raises (Exception ("Unknown payment type: " ++ payment_type)%string), s).

(** The calls a client makes on its orders. *)
Inductive call : Type :=
| AddItem (self : ref) (name : string) (quantity price_ : Z)
| Pay (self : ref) (payment_type security_code : string).

Definition step (c : call) (s : state) : state :=
  match c with
  | AddItem self name quantity price_ => add_item self name quantity price_ s
  | Pay self payment_type security_code =>
      snd (pay self payment_type security_code s)
  end.

Definition run (cs : list call) (s : state) : state :=
  fold_left (fun s c => step c s) cs s.

(** Specification side: the amount a call adds to the total, and whether
    it pays the order [self]. *)
Definition amount (c : call) : Z :=
  match c with
  | AddItem _ _ quantity price_ => quantity * price_
  | Pay _ _ _ => 0
  end.

Definition pays (self : ref) (c : call) : bool :=
  match c with
  | AddItem _ _ _ _ => false
  | Pay o payment_type _ =>
      Nat.eqb o self
      && (String.eqb payment_type "debit" || String.eqb payment_type "credit")
  end.

End Orders.

(** The names of the columns of the frame a strategy returns. *)
Definition returned_columns (strategy : DataProcess) : list string :=
  match strategy with
  | SalesTrendsOverTime_ => ["Date"; "Year"; "Month"; "TotalSales"]
  | ProfitAnalysisByCountry_ => ["Country"; "Profit"]
  | ProductPerformance_ => ["Product"; "Sales"; "Profit"]
  | DiscountImpactOnSales_ => ["Discount Band"; "Sales"; "Profit"]
  | MonthlySalesDistribution_ => ["Date"; "MonthlySales"]
  | CountryWiseSalesDistribution_ => ["Country"; "Sales"]
  | CorrelationAnalysis_ => numeric_columns
  end.
(* ================================================================== *)
(** * DSA_erp.py: the selected chart *)

(** What a trace is given: a column of cells, a column of the correlation
    matrix, labels, a [RangeIndex], or a table of values. *)
Inductive plot_data : Type :=
| Cells (s : Series)
| Reals (l : list (option R))
| Labels (l : list string)
| Range (l : list Z)
| Table (rows : list (list (option R)))
| CellTable (rows : list Series).

Fixpoint index_of (col : string) (l : list string) : option nat :=
  match l with
  | [] => None
  | c :: rest =>
      if String.eqb col c then Some O
      else match index_of col rest with
           | Some j => Some (S j)
           | None => None
           end
  end.

(** [data[col]] on what a strategy returned: a column of the frame, or of
    the correlation matrix. *)
Definition output_getitem (data : Output) (col : string) : result plot_data :=
  match data with
  | Frame df => (s <- getitem df col ;; Ok (Cells s))%py
  | Matrix m =>
      match index_of col (corr_columns m) with
      | Some j => Ok (Reals (map (fun row => nth j row None) (corr_values m)))
      | None => Raise (KeyError col)
      end
  end.

(** [data.values] *)
Definition output_values (data : Output) : plot_data :=
  match data with
  | Frame df =>
      CellTable (map (fun i => map (fun c => nth i (snd c) NaN) (columns df))
                     (seq 0 (nrows df)))
  | Matrix m => Table (corr_values m)
  end.

(** [data.columns] *)
Definition output_columns (data : Output) : plot_data :=
  match data with
  | Frame df => Labels (column_names df)
  | Matrix m => Labels (corr_columns m)
  end.

(** [data.index] *)
Definition output_index (data : Output) : plot_data :=
  match data with
  | Frame df => Range (index df)
  | Matrix m => Labels (corr_index m)
  end.

(** A trace of a figure; the keys a trace does not give are [None]. *)
Record chart_trace : Type := mkChartTrace {
  trace_x : plot_data;
  trace_y : plot_data;
  trace_z : option plot_data;
  trace_type : string;
  trace_name : option string;
  trace_mode : option string;
  trace_colorscale : option string
}.

Record chart_layout_t : Type := mkChartLayout {
  layout_title : string;
  layout_barmode : option string;
  layout_xaxis : option string;
  layout_yaxis : option string
}.

(** What the callback returns: a [dcc.Graph], or a text. *)
Inductive children : Type :=
| Graph (data : list chart_trace) (layout : chart_layout_t)
| Text (s : string).

Definition xy_trace (x y : plot_data) (type : string)
  (name mode : option string) : chart_trace :=
  {| trace_x := x; trace_y := y; trace_z := None; trace_type := type;
     trace_name := name; trace_mode := mode; trace_colorscale := None |}.

Definition titled (title : string) : chart_layout_t :=
  {| layout_title := title; layout_barmode := None;
     layout_xaxis := None; layout_yaxis := None |}.

(** [display_selected_chart(chart_value)], which reads the aggregates
    computed at start. *)
Definition display_selected_chart (g : Globals) (chart_value : string)
  : result children :=
  if String.eqb chart_value "sales-trends" then
    (x <- output_getitem (sales_trends_data g) "Date" ;;
     y <- output_getitem (sales_trends_data g) "TotalSales" ;;
     Ok (Graph [xy_trace x y "line" None None]
               (titled "Sales Trends Over Time")))%py
  else if String.eqb chart_value "profit-by-country" then
    (x <- output_getitem (profit_by_country_data g) "Country" ;;
     y <- output_getitem (profit_by_country_data g) "Profit" ;;
     Ok (Graph [xy_trace x y "bar" None None]
               (titled "Profit Analysis by Country")))%py
  else if String.eqb chart_value "product-performance" then
    (x1 <- output_getitem (product_performance_data g) "Product" ;;
     y1 <- output_getitem (product_performance_data g) "Sales" ;;
     x2 <- output_getitem (product_performance_data g) "Product" ;;
     y2 <- output_getitem (product_performance_data g) "Profit" ;;
     Ok (Graph [xy_trace x1 y1 "bar" (Some "Sales") None;
                xy_trace x2 y2 "bar" (Some "Profit") None]
               {| layout_title := "Product Performance";
                  layout_barmode := Some "stack";
                  layout_xaxis := None; layout_yaxis := None |}))%py
  else if String.eqb chart_value "country-wise-sales" then
    (x <- output_getitem (country_wise_sales_data g) "Country" ;;
     y <- output_getitem (country_wise_sales_data g) "Sales" ;;
     Ok (Graph [xy_trace x y "bar" (Some "Sales by Country") None]
               {| layout_title := "Country-wise Sales Distribution";
                  layout_barmode := None;
                  layout_xaxis := Some "Country";
                  layout_yaxis := Some "Total Sales" |}))%py
  else if String.eqb chart_value "discount-impact" then
    (x <- output_getitem (discount_impact_data g) "Discount Band" ;;
     y <- output_getitem (discount_impact_data g) "Sales" ;;
     Ok (Graph [xy_trace x y "scatter" (Some "Discount Impact on Sales")
                         (Some "markers")]
               (titled "Discount Impact on Sales")))%py
  else if String.eqb chart_value "correlation-analysis" then
    Ok (Graph [ {| trace_x := output_columns (correlation_analysis_data g);
                   trace_y := output_index (correlation_analysis_data g);
                   trace_z :=
                     Some (output_values (correlation_analysis_data g));
                   trace_type := "heatmap";
                   trace_name := None;
                   trace_mode := None;
                   trace_colorscale := Some "Viridis" |} ]
              {| layout_title := "Correlation Analysis";
                 layout_barmode := None;
                 layout_xaxis := Some "Variables";
                 layout_yaxis := Some "Variables" |})
  else Ok (Text "Please select a chart.").

(** The values of the options of the chart selector. *)
Definition chart_options : list string :=
  ["sales-trends"; "profit-by-country"; "product-performance";
   "country-wise-sales"; "discount-impact"; "correlation-analysis"].

(** A trace whose x and y are columns has as many x as y. *)
Definition balanced (t : chart_trace) : Prop :=
  match trace_x t, trace_y t with
  | Cells x, Cells y => List.length x = List.length y
  | Labels x, Labels y => List.length x = List.length y
  | _, _ => False
  end.

(* ================================================================== *)
(** * Theorems *)

(** ** Singleton.py *)

Lemma Logger_raises (s : Singleton.state) :
  fst (Singleton.Logger s)
  = Raise (RuntimeError "Call instance() instead")
  /\ Singleton._instance (snd (Singleton.Logger s)) = Singleton._instance s.
Proof. split; reflexivity. Qed.

Lemma instance_sets (s : Singleton.state) :
  exists o, fst (Singleton.instance s) = Ok o
            /\ Singleton._instance (snd (Singleton.instance s)) = Some o.
Proof.
  unfold Singleton.instance.
  destruct (Singleton._instance s) as [o|] eqn:E.
  - exists o. simpl. auto.
  - eexists. simpl. split; reflexivity.
Qed.

Lemma instance_cached (s : Singleton.state) (o : Singleton.ref) :
  Singleton._instance s = Some o ->
  Singleton.instance s = (Ok o, s).
Proof. intros H. unfold Singleton.instance. now rewrite H. Qed.

Lemma run_cached (cs : list Singleton.call) :
  forall (s : Singleton.state) (o : Singleton.ref),
    Singleton._instance s = Some o ->
    Singleton._instance (snd (Singleton.run cs s)) = Some o
    /\ forall c r, In (c, r) (fst (Singleton.run cs s)) ->
         match c with
         | Singleton.CallInstance => r = Ok o
         | Singleton.CallLogger =>
             r = Raise (RuntimeError "Call instance() instead")
         end.
Proof.
  induction cs as [|c cs IH]; intros s o Hs.
  - simpl. split; [assumption | intros c r []].
  - simpl. destruct (Singleton.step c s) as [r1 s1] eqn:Estep.
    destruct (Singleton.run cs s1) as [rs s2] eqn:Erun.
    assert (Hs1 : Singleton._instance s1 = Some o
                  /\ match c with
                     | Singleton.CallInstance => r1 = Ok o
                     | Singleton.CallLogger =>
                         r1 = Raise (RuntimeError "Call instance() instead")
                     end).
    { destruct c; simpl in Estep.
      - inversion Estep; subst. simpl. auto.
      - rewrite (instance_cached s o Hs) in Estep.
        inversion Estep; subst. auto. }
    destruct Hs1 as [Hs1 Hr1].
    destruct (IH s1 o Hs1) as [IH1 IH2]. rewrite Erun in IH1, IH2.
    simpl in *. split; [assumption|].
    intros c' r' [Heq | Hin].
    + inversion Heq; subst. assumption.
    + now apply IH2.
Qed.

(** C10: from any state of the class, and for any sequence of calls to
    [Logger()] and [Logger.instance()], there is one object that every call
    of [instance()] returns, and every call of the constructor raises
    [RuntimeError]. *)
Theorem C10_logger_singleton (cs : list Singleton.call) (s : Singleton.state) :
  exists o : Singleton.ref,
    forall c r, In (c, r) (fst (Singleton.run cs s)) ->
      match c with
      | Singleton.CallInstance => r = Ok o
      | Singleton.CallLogger =>
          r = Raise (RuntimeError "Call instance() instead")
      end.
Proof.
  revert s. induction cs as [|c cs IH]; intros s.
  - exists O. intros c r [].
  - destruct c.
    + (* the constructor leaves the class attribute alone *)
      destruct (Singleton.step Singleton.CallLogger s) as [r1 s1] eqn:Estep.
      destruct (IH s1) as [o Ho].
      exists o. cbn [Singleton.run]. rewrite Estep.
      destruct (Singleton.run cs s1) as [rs s2] eqn:Erun.
      cbn [fst] in *. intros c r [Heq | Hin].
      * inversion Heq; subst. simpl in Estep. now inversion Estep.
      * now apply Ho.
    + destruct (instance_sets s) as [o [Hr Hs]].
      exists o. cbn [Singleton.run Singleton.step].
      destruct (Singleton.instance s) as [r1 s1] eqn:Einst.
      cbn [fst snd] in Hr, Hs. subst r1.
      destruct (run_cached cs s1 o Hs) as [_ Hall].
      destruct (Singleton.run cs s1) as [rs s2] eqn:Erun.
      cbn [fst] in *. intros c r [Heq | Hin].
      * inversion Heq; subst. reflexivity.
      * now apply Hall.
Qed.

(** ** The dynamic chart *)

(** C9: with [rows] absent the callback returns the figure without series,
    whatever the selection. *)
Theorem C9_chart_rows_None (selected_columns : option (list string)) :
  update_dynamic_chart None selected_columns = Ok empty_figure.
Proof. reflexivity. Qed.

Lemma chart_no_selection (rows : option (list record)) :
  update_dynamic_chart rows (Some []) = Ok empty_figure
  /\ update_dynamic_chart rows None = Ok empty_figure.
Proof. destruct rows; split; reflexivity. Qed.

Example chart_sales_example :
  update_dynamic_chart
    (Some [[("Sales", OInt 10)]; [("Sales", OInt 20)]]) (Some ["Sales"])
  = Ok {| data := [ {| x := [0; 1]; y := [OInt 10; OInt 20];
                       type := "line"; name := "Sales" |} ];
          layout := Some {| title := "Dynamic Data Chart";
                            xaxis_title := "Index";
                            yaxis_title := "Value" |} |}.
Proof. reflexivity. Qed.

Example chart_text_column_excluded :
  update_dynamic_chart
    (Some [[("Country", OStr "Canada"); ("Sales", OInt 10)];
           [("Country", OStr "France"); ("Sales", OInt 20)]])
    (Some ["Country"; "Sales"])
  = Ok {| data := [ {| x := [0; 1]; y := [OInt 10; OInt 20];
                       type := "line"; name := "Sales" |} ];
          layout := Some {| title := "Dynamic Data Chart";
                            xaxis_title := "Index";
                            yaxis_title := "Value" |} |}.
Proof. reflexivity. Qed.

(** C3, at the input the code mishandles: the table shows no row (a filter
    that matches nothing) while a column is selected.  The frame built from
    the empty list has no column and the lookup raises. *)
Theorem C3_chart_empty_rows_raises :
  update_dynamic_chart (Some []) (Some ["Sales"]) = Raise (KeyError "Sales").
Proof. reflexivity. Qed.



(** ** Grouping *)

Section GroupByFacts.

Context {K : Type} (eqb leb : K -> K -> bool).
Hypothesis eqb_eq : forall a b, eqb a b = true <-> a = b.

Lemma eqb_refl (a : K) : eqb a a = true.
Proof. now apply eqb_eq. Qed.

Lemma eqb_neq (a b : K) : eqb a b = false <-> a <> b.
Proof.
  split.
  - intros H E. apply eqb_eq in E. congruence.
  - intros H. destruct (eqb a b) eqn:E; [|reflexivity].
    apply eqb_eq in E. contradiction.
Qed.











(** With a total, transitive order the groups come out ascending. *)
Hypothesis leb_total : forall a b, leb a b = true \/ leb b a = true.
Hypothesis leb_trans :
  forall a b c, leb a b = true -> leb b c = true -> leb a c = true.



End GroupByFacts.

(** ** Frames *)

Lemma lookup_replace_same (col : string) (s : Series)
  (l : list (string * Series)) :
  lookup col (replace_column col s l) = Some s.
Proof.
  induction l as [|[k v] rest IH]; simpl.
  - now rewrite String.eqb_refl.
  - destruct (String.eqb col k) eqn:E; simpl; rewrite E; auto.
Qed.

Lemma lookup_replace_other (col col' : string) (s : Series)
  (l : list (string * Series)) :
  col' <> col ->
  lookup col' (replace_column col s l) = lookup col' l.
Proof.
  intros Hne. induction l as [|[k v] rest IH]; simpl.
  - apply String.eqb_neq in Hne. now rewrite Hne.
  - destruct (String.eqb col k) eqn:E; simpl.
    + apply String.eqb_eq in E. subst k.
      apply String.eqb_neq in Hne. now rewrite Hne.
    + now rewrite IH.
Qed.

Lemma names_replace_present (col : string) (s : Series)
  (l : list (string * Series)) :
  lookup col l <> None ->
  map fst (replace_column col s l) = map fst l.
Proof.
  induction l as [|[k v] rest IH]; simpl; intros H.
  - congruence.
  - destruct (String.eqb col k) eqn:E; simpl; [reflexivity|].
    now rewrite IH.
Qed.

Lemma getitem_setitem_same (data : DataFrame) (col : string) (s : Series) :
  getitem (setitem data col s) col = Ok s.
Proof. unfold getitem, setitem. simpl. now rewrite lookup_replace_same. Qed.

Lemma getitem_setitem_other (data : DataFrame) (col col' : string)
  (s : Series) :
  col' <> col -> getitem (setitem data col s) col' = getitem data col'.
Proof.
  intros H. unfold getitem, setitem. simpl.
  now rewrite lookup_replace_other.
Qed.

Lemma getitem_Ok (data : DataFrame) (col : string) (s : Series) :
  getitem data col = Ok s <-> lookup col (columns data) = Some s.
Proof.
  unfold getitem. destruct (lookup col (columns data)); split; congruence.
Qed.


Lemma mapM_Forall2 {A B} (f : A -> result B) (l : list A) (l' : list B) :
  mapM f l = Ok l' <-> Forall2 (fun a b => f a = Ok b) l l'.
Proof.
  revert l'. induction l as [|a l IH]; intros l'; simpl.
  - split; intros H; [inversion H; constructor | now inversion H].
  - destruct (f a) as [b|e] eqn:Ea; simpl.
    + destruct (mapM f l) as [bs|e] eqn:El; simpl.
      * split; intros H.
        -- inversion H; subst. constructor; [assumption | now apply IH].
        -- inversion H as [|? ? ? ? Hab Hrest]; subst.
           apply IH in Hrest. congruence.
      * split; intros H; [discriminate|].
        inversion H as [|? ? ? ? Hab Hrest]; subst.
        apply IH in Hrest. discriminate.
    + split; intros H; [discriminate|].
      inversion H; subst. congruence.
Qed.



(** ** Keys *)







(** ** Sales Trend Over Time *)

Lemma assemble_groups {A} (groups : list (Z * Z * A)) :
  assemble (map (fun g => OInt (fst (fst g))) groups)
           (map (fun g => OInt (snd (fst g))) groups)
           (repeat (OInt 1) (List.length groups))
  = map first_of_month (map fst groups).
Proof.
  induction groups as [|[[y m] a] t IH]; simpl; [reflexivity|].
  now rewrite IH.
Qed.






(** ** Sums of integers *)

Lemma wrap64_add_l (a b : Z) : wrap64 (wrap64 a + b) = wrap64 (a + b).
Proof.
  unfold wrap64.
  replace ((a + 2 ^ 63) mod 2 ^ 64 - 2 ^ 63 + b + 2 ^ 63)
    with ((a + 2 ^ 63) mod 2 ^ 64 + b) by ring.
  rewrite Zplus_mod_idemp_l. do 2 f_equal. ring.
Qed.


Lemma wrap64_idem (a : Z) : wrap64 (wrap64 a) = wrap64 a.
Proof.
  replace (wrap64 a) with (wrap64 a + 0) at 1 by ring.
  rewrite wrap64_add_l. f_equal. ring.
Qed.






Section Partition.

Context {K : Type} (eqb : K -> K -> bool).
Hypothesis eqb_eq : forall a b, eqb a b = true <-> a = b.




End Partition.

(** ** Conservation of the total *)

Lemma well_formed_length (data : DataFrame) (col : string) (s : Series) :
  well_formed data -> getitem data col = Ok s -> List.length s = nrows data.
Proof.
  unfold well_formed. intros Hwf Hget. apply getitem_Ok in Hget.
  induction (columns data) as [|[k v] rest IH]; simpl in *; [discriminate|].
  inversion Hwf as [|? ? Hhd Htl]; subst.
  destruct (String.eqb col k).
  - inversion Hget; subst. exact Hhd.
  - now apply IH.
Qed.

Lemma mapM_length {A B} (f : A -> result B) (l : list A) (l' : list B) :
  mapM f l = Ok l' -> List.length l' = List.length l.
Proof.
  intros H. apply mapM_Forall2 in H. symmetry.
  eapply Forall2_length. exact H.
Qed.








(** ** Sums by category *)







(** ** What a strategy changes in the caller's frame *)

Lemma same_except_refl (cols : list string) (data : DataFrame) :
  same_except cols data data.
Proof. repeat split. Qed.

Lemma same_except_trans (cols : list string) (d1 d2 d3 : DataFrame) :
  same_except cols d1 d2 -> same_except cols d2 d3 -> same_except cols d1 d3.
Proof.
  intros [Hn1 [Hc1 Hl1]] [Hn2 [Hc2 Hl2]]. repeat split.
  - congruence.
  - congruence.
  - intros col Hcol. rewrite Hl2, Hl1; auto.
Qed.

Lemma same_except_setitem (cols : list string) (data : DataFrame)
  (col : string) (old new : Series) :
  In col cols -> getitem data col = Ok old ->
  same_except cols data (setitem data col new).
Proof.
  intros Hin Hget. apply getitem_Ok in Hget. repeat split.
  - unfold column_names, setitem. simpl.
    apply names_replace_present. congruence.
  - intros c Hc. unfold setitem. simpl. apply lookup_replace_other.
    intros ->. contradiction.
Qed.

Lemma SalesTrends_state parse (data : DataFrame) :
  snd (SalesTrendsOverTime parse data) = data
  \/ exists raw dates,
       getitem data "Date" = Ok raw
       /\ to_datetime parse raw = Ok dates
       /\ snd (SalesTrendsOverTime parse data) = setitem data "Date" dates.
Proof.
  unfold SalesTrendsOverTime, bindM, read, lift, assign, ret.
  destruct (getitem data "Date") as [raw|e] eqn:Hd; [|now left].
  destruct (to_datetime parse raw) as [dates|e] eqn:Ht; [|now left].
  right. exists raw, dates. split; [reflexivity|]. split; [exact Ht|].
  cbv beta iota. rewrite getitem_setitem_same. cbv beta iota.
  destruct (getitem (setitem data "Date" dates) "Sales"); [|reflexivity].
  cbv beta iota. destruct (groups_sum _ _); reflexivity.
Qed.

Lemma Monthly_state parse (data : DataFrame) :
  snd (MonthlySalesDistribution parse data) = data
  \/ exists raw dates,
       getitem data "Date" = Ok raw
       /\ to_datetime parse raw = Ok dates
       /\ snd (MonthlySalesDistribution parse data)
          = setitem data "Date" dates.
Proof.
  unfold MonthlySalesDistribution, bindM, read, lift, assign, ret.
  destruct (getitem data "Date") as [raw|e] eqn:Hd; [|now left].
  destruct (to_datetime parse raw) as [dates|e] eqn:Ht; [|now left].
  right. exists raw, dates. split; [reflexivity|]. split; [exact Ht|].
  cbv beta iota. rewrite getitem_setitem_same. cbv beta iota.
  destruct (getitem (setitem data "Date" dates) "Sales"); [|reflexivity].
  cbv beta iota. destruct (groups_sum _ _); reflexivity.
Qed.

Lemma convert_columns_state (cols all : list string) :
  incl cols all ->
  forall data : DataFrame,
    same_except all data (snd (convert_columns cols data)).
Proof.
  induction cols as [|col rest IH]; intros Hincl data; simpl.
  - apply same_except_refl.
  - unfold bindM, read, assign.
    destruct (getitem data col) as [s|e] eqn:Hget; simpl.
    + eapply same_except_trans.
      * apply (same_except_setitem all data col s
                 (map convert_currency s)); [|exact Hget].
        apply Hincl. now left.
      * apply IH. intros c Hc. apply Hincl. now right.
    + apply same_except_refl.
Qed.

Lemma Correlation_state (data : DataFrame) :
  snd (CorrelationAnalysis data) = snd (convert_columns numeric_columns data).
Proof.
  unfold CorrelationAnalysis, bindM, get, lift, ret.
  destruct (convert_columns numeric_columns data) as [[u|e] data'];
    [|reflexivity].
  simpl. destruct (getitem_list data' numeric_columns); reflexivity.
Qed.

Lemma pure_state (r : DataFrame -> result DataFrame) (data : DataFrame) :
  snd ((data <- get ;; out <- lift (r data) ;; ret (Frame out))%df data)
  = data.
Proof. unfold bindM, get, lift, ret. destruct (r data); reflexivity. Qed.

(** C8: whatever a strategy returns or raises, the caller's frame keeps
    its rows, its column names and their order, and every column the
    strategy does not assign: Sales Trend Over Time (and the monthly
    distribution) can change the Date column only, Correlation Matrix the
    seven numeric columns only, and Profit by Category, Performance by
    Entity, Discount Impact and Distribution by Category leave the frame as
    it is. *)
Theorem C8_frame parse (strategy : DataProcess) (data : DataFrame) :
  same_except (assigned_columns strategy) data
    (snd (process_data parse strategy data))
  /\ (assigned_columns strategy = [] ->
      snd (process_data parse strategy data) = data).
Proof.
  destruct strategy; cbn [process_data assigned_columns].
  - (* Sales Trend Over Time *)
    split; [|discriminate].
    destruct (SalesTrends_state parse data) as [-> | [raw [dates [Hd [_ ->]]]]].
    + apply same_except_refl.
    + apply (same_except_setitem _ data "Date" raw dates);
        [now left | exact Hd].
  - rewrite (pure_state (fun d => groupby_sum d "Country" ["Profit"]) data
               : snd (ProfitAnalysisByCountry data) = data).
    split; [apply same_except_refl | reflexivity].
  - rewrite (pure_state (fun d => groupby_sum d "Product" ["Sales"; "Profit"]) data
               : snd (ProductPerformance data) = data).
    split; [apply same_except_refl | reflexivity].
  - rewrite (pure_state (fun d => getitem_list d ["Discount Band"; "Sales"; "Profit"]) data
               : snd (DiscountImpactOnSales data) = data).
    split; [apply same_except_refl | reflexivity].
  - split; [|discriminate].
    destruct (Monthly_state parse data) as [-> | [raw [dates [Hd [_ ->]]]]].
    + apply same_except_refl.
    + apply (same_except_setitem _ data "Date" raw dates);
        [now left | exact Hd].
  - rewrite (pure_state (fun d => groupby_sum d "Country" ["Sales"]) data
               : snd (CountryWiseSalesDistribution data) = data).
    split; [apply same_except_refl | reflexivity].
  - split; [|discriminate].
    rewrite Correlation_state. apply convert_columns_state.
    apply incl_refl.
Qed.

(** ** Missing columns *)




Lemma pure_result (r : DataFrame -> result DataFrame) (data : DataFrame) :
  fst ((data <- get ;; out <- lift (r data) ;; ret (Frame out))%df data)
  = match r data with
    | Ok out => Ok (Frame out)
    | Raise e => Raise e
    end.
Proof. unfold bindM, get, lift, ret. destruct (r data); reflexivity. Qed.

Lemma convert_columns_missing (cols : list string) :
  forall data : DataFrame,
    (exists col, In col cols /\ lookup col (columns data) = None) ->
    exists col,
      In col cols /\ lookup col (columns data) = None
      /\ fst (convert_columns cols data) = Raise (KeyError col).
Proof.
  induction cols as [|c cols IH]; intros data [m [Hm Hnone]]; [easy|].
  simpl. unfold bindM, read, assign. unfold getitem.
  destruct (lookup c (columns data)) as [s|] eqn:Ec; simpl.
  - destruct Hm as [<- | Hm]; [congruence|].
    assert (Hmc : m <> c) by congruence.
    destruct (IH (setitem data c (map convert_currency s))) as
      [col [Hin [Hn Hr]]].
    { exists m. split; [assumption|]. simpl.
      now rewrite lookup_replace_other. }
    exists col. split; [now right|]. split; [|exact Hr].
    simpl in Hn. destruct (string_dec col c) as [-> | Hne].
    + now rewrite lookup_replace_same in Hn.
    + now rewrite lookup_replace_other in Hn.
  - exists c. auto.
Qed.





(** ** Pearson's coefficient *)

Section PearsonFacts.

Local Open Scope R_scope.













End PearsonFacts.

(** ** The diagonal *)

Section DiagonalFacts.

Local Open Scope R_scope.















End DiagonalFacts.

(** ** Correlation Matrix *)

Lemma present_or_missing (data : DataFrame) (cols : list string) :
  (forall col, In col cols -> lookup col (columns data) <> None)
  \/ (exists col, In col cols /\ lookup col (columns data) = None).
Proof.
  induction cols as [|c cols IH].
  - left. intros col [].
  - destruct (lookup c (columns data)) as [s|] eqn:Ec.
    + destruct IH as [IH | [col [Hin Hn]]].
      * left. intros col [<- | Hin]; [congruence | now apply IH].
      * right. exists col. split; [now right | assumption].
    + right. exists c. split; [now left | assumption].
Qed.

Lemma normalized_setitem (data : DataFrame) (c col : string) (s : Series) :
  col <> c -> normalized (setitem data c s) col = normalized data col.
Proof.
  intros H. unfold normalized, setitem. simpl.
  now rewrite lookup_replace_other.
Qed.

Lemma convert_columns_ok (cols : list string) :
  NoDup cols ->
  forall data : DataFrame,
    (forall col, In col cols -> lookup col (columns data) <> None) ->
    fst (convert_columns cols data) = Ok tt
    /\ forall col, In col cols ->
         lookup col (columns (snd (convert_columns cols data)))
         = Some (normalized data col).
Proof.
  induction 1 as [|c cols Hnot Hnd IH]; intros data Hall.
  - split; [reflexivity | intros col []].
  - simpl. unfold bindM, read, assign. unfold getitem.
    destruct (lookup c (columns data)) as [s|] eqn:Ec;
      [|exfalso; apply (Hall c); [now left | assumption]].
    cbv beta iota.
    set (d1 := setitem data c (map convert_currency s)).
    assert (Hother : forall col, In col cols -> col <> c)
      by (intros col Hin ->; contradiction).
    destruct (IH d1) as [Hok Hcols].
    { intros col Hin. unfold d1, setitem. simpl.
      rewrite lookup_replace_other by (now apply Hother).
      apply Hall. now right. }
    split; [exact Hok|].
    intros col [<- | Hin].
    + destruct (convert_columns_state cols cols (incl_refl cols) d1)
        as [_ [_ Hframe]].
      rewrite (Hframe c Hnot). unfold d1, setitem, normalized. simpl.
      now rewrite lookup_replace_same, Ec.
    + rewrite (Hcols col Hin). unfold d1.
      now rewrite normalized_setitem by (now apply Hother).
Qed.

Lemma select_ok (d : DataFrame) (f : string -> Series) (cols : list string) :
  (forall c, In c cols -> lookup c (columns d) = Some (f c)) ->
  mapM (fun c => (s <- getitem d c ;; Ok (c, s))%py) cols
  = Ok (map (fun c => (c, f c)) cols).
Proof.
  induction cols as [|c cols IH]; intros H; simpl; [reflexivity|].
  unfold getitem at 1. rewrite (H c) by now left. simpl.
  rewrite IH; [reflexivity|]. intros; apply H; now right.
Qed.

Lemma numeric_columns_NoDup : NoDup numeric_columns.
Proof.
  unfold numeric_columns.
  repeat (constructor;
          [simpl; intros H;
           repeat (destruct H as [H | H]; [discriminate H|]); exact H|]).
  constructor.
Qed.

(** With the seven columns present the strategy returns the correlation
    of the normalized columns. *)
Lemma Correlation_run (data : DataFrame) :
  (forall col, In col numeric_columns -> lookup col (columns data) <> None) ->
  fst (CorrelationAnalysis data) = Ok (Matrix (corr (normalized_frame data))).
Proof.
  intros Hall.
  destruct (convert_columns_ok numeric_columns numeric_columns_NoDup data Hall)
    as [Hok Hcols].
  destruct (convert_columns_state numeric_columns numeric_columns
              (incl_refl _) data) as [Hrows _].
  unfold CorrelationAnalysis, bindM, get, lift, ret.
  destruct (convert_columns numeric_columns data) as [r data'] eqn:E.
  simpl in Hok, Hcols, Hrows. subst r. cbv beta iota.
  unfold getitem_list.
  rewrite (select_ok data' (normalized data) numeric_columns Hcols).
  simpl. unfold normalized_frame. now rewrite Hrows.
Qed.

(** It returns nothing else, and no cell makes it raise: all it can raise
    is the [KeyError] of an absent column. *)
Lemma Correlation_cases (data : DataFrame) :
  fst (CorrelationAnalysis data) = Ok (Matrix (corr (normalized_frame data)))
  \/ exists col,
       In col numeric_columns /\ lookup col (columns data) = None
       /\ fst (CorrelationAnalysis data) = Raise (KeyError col).
Proof.
  destruct (present_or_missing data numeric_columns) as [Hall | Hmiss].
  - left. now apply Correlation_run.
  - right.
    destruct (convert_columns_missing numeric_columns data Hmiss)
      as [col [Hin [Hn Hr]]].
    exists col. split; [assumption|]. split; [assumption|].
    unfold CorrelationAnalysis, bindM.
    destruct (convert_columns numeric_columns data) as [[u|e] data'];
      simpl in Hr; [discriminate|].
    simpl. now inversion Hr.
Qed.


Lemma entry_corr (df : DataFrame) (i j : nat) :
  entry (corr df) i j
  = match nth_error (columns df) i, nth_error (columns df) j with
    | Some ci, Some cj => pearson (complete_pairs (snd ci) (snd cj))
    | _, _ => None
    end.
Proof.
  unfold entry, corr. simpl. rewrite nth_error_map.
  destruct (nth_error (columns df) i) as [ci|]; simpl; [|reflexivity].
  rewrite nth_error_map.
  destruct (nth_error (columns df) j) as [cj|]; reflexivity.
Qed.

Lemma entry_normalized (data : DataFrame) (i j : nat) :
  (i < 7)%nat -> (j < 7)%nat ->
  entry (corr (normalized_frame data)) i j
  = pearson (complete_pairs
               (normalized data (nth i numeric_columns ""))
               (normalized data (nth j numeric_columns ""))).
Proof.
  intros Hi Hj. rewrite entry_corr. unfold normalized_frame. cbn [columns].
  rewrite !nth_error_map.
  rewrite (nth_error_nth' numeric_columns "" (n := i)) by exact Hi.
  rewrite (nth_error_nth' numeric_columns "" (n := j)) by exact Hj.
  reflexivity.
Qed.




(** ** Currency cells *)

(** What [convert_currency] makes of a text cell. *)
Lemma convert_currency_text (s : string) :
  convert_currency (OStr s)
  = let t := PyStr.replace (PyStr.replace s "," "") "$" "" in
    if String.eqb (PyStr.strip t) "" || String.eqb (PyStr.strip t) "-"
    then NaN
    else match PyStr.float_of_string t with
         | Ok f => OFloat f
         | Raise _ => NaN
         end.
Proof.
  unfold convert_currency. simpl.
  destruct (String.eqb (PyStr.strip _) ""); simpl; [reflexivity|].
  destruct (String.eqb (PyStr.strip _) "-"); simpl; [reflexivity|].
  destruct (PyStr.float_of_string _); reflexivity.
Qed.

(** What it makes of any other cell: [replace] is missing or rejects its
    arguments, and the handler returns NaN. *)
Lemma convert_currency_not_text (v : pyobj) :
  is_str v = false -> convert_currency v = NaN.
Proof. destruct v; simpl; intros H; try discriminate; reflexivity. Qed.

(** It always returns a float. *)
Lemma convert_currency_float (v : pyobj) :
  exists f, convert_currency v = OFloat f.
Proof.
  destruct v as [s| | | | | |]; try (exists FNaN; reflexivity).
  rewrite convert_currency_text. cbv zeta.
  destruct (_ || _); [now exists FNaN|].
  destruct (PyStr.float_of_string _) as [f|]; [now exists f | now exists FNaN].
Qed.

Example convert_currency_amount :
  convert_currency (OStr " $1,234.50 ") = OFloat (FFin (Q2Qc (2469 # 2))).
Proof. vm_compute. do 2 f_equal. now apply Qc_is_canon. Qed.

Example convert_currency_placeholder :
  convert_currency (OStr " $-   ") = NaN
  /\ convert_currency (OStr "") = NaN
  /\ convert_currency (OStr "n/a") = NaN
  /\ convert_currency NaN = NaN.
Proof. repeat split; reflexivity. Qed.

(** C1, at the input the code mishandles: a cell that is a number already
    (an [int64] or [float64] column of the CSV file) has no [replace]
    method, the [AttributeError] is caught like a failed conversion, and
    the number becomes NaN: the column of units 10 and 20 is all NaN after
    the normalization. *)
Theorem C1_numeric_cells_become_NaN :
  (forall n, convert_currency (OInt n) = NaN)
  /\ (forall f, convert_currency (OFloat f) = NaN)
  /\ getitem (snd (CorrelationAnalysis numeric_units)) "Units Sold"
     = Ok [NaN; NaN].
Proof.
  split; [reflexivity|]. split; [reflexivity|].
  rewrite Correlation_state. vm_compute. reflexivity.
Qed.

(** ** The dynamic chart, when every selected column is displayed *)



(** ** The rows of a key *)

Section RowsOfKey.

Context {K : Type} (eqb : K -> K -> bool).
Hypothesis eqb_eq : forall a b, eqb a b = true <-> a = b.

(** [rows_with_key] lists exactly the positions at which the key column
    holds the key, each once. *)
Lemma rows_with_key_spec (k : K) (keys : list (option K)) :
  (forall i, In i (rows_with_key eqb k keys)
             <-> nth_error keys i = Some (Some k))
  /\ NoDup (rows_with_key eqb k keys).
Proof.
  induction keys as [|key keys [IHin IHnd]]; simpl.
  - split; [|constructor]. intros [|i]; simpl; split; intros H;
      try contradiction; discriminate.
  - assert (Hshift : forall i, In (S i) (map S (rows_with_key eqb k keys))
                               <-> nth_error keys i = Some (Some k)).
    { intros i. rewrite <- IHin, in_map_iff. split.
      - intros [j [Hj Hin]]. inversion Hj. now subst.
      - intros Hin. now exists i. }
    assert (Hzero : ~ In O (map S (rows_with_key eqb k keys))).
    { rewrite in_map_iff. intros [j [Hj _]]. discriminate. }
    assert (Hnd : NoDup (map S (rows_with_key eqb k keys))).
    { apply Finite.Injective_map_NoDup; [|exact IHnd].
      intros a b H. now inversion H. }
    destruct key as [k'|]; simpl.
    + destruct (eqb k k') eqn:E.
      * apply eqb_eq in E. subst k'. split; [|now constructor].
        intros [|i]; simpl.
        -- split; auto.
        -- rewrite <- Hshift. split; [intros [H|H]; [discriminate|exact H]|].
           intros H. now right.
      * split; [|exact Hnd]. intros [|i]; simpl.
        -- split; [contradiction|]. intros H. inversion H. subst k'.
           rewrite (proj2 (eqb_eq k k) eq_refl) in E. discriminate.
        -- apply Hshift.
    + split; [|exact Hnd]. intros [|i]; simpl.
      * split; [contradiction | discriminate].
      * apply Hshift.
Qed.

End RowsOfKey.

(** ** A strategy run again, and the strategies run in turn *)

Lemma to_datetime_cell_idem parse (v w : pyobj) :
  to_datetime_cell parse v = Ok w -> to_datetime_cell parse w = Ok w.
Proof.
  unfold to_datetime_cell.
  destruct v as [s|n|[q|b|]|b| |t|];
    try (intros H; inversion H; subst; reflexivity);
    destruct (parse _) as [[t|]|e]; intros H; inversion H; reflexivity.
Qed.

Lemma to_datetime_idem parse (raw dates : Series) :
  to_datetime parse raw = Ok dates -> to_datetime parse dates = Ok dates.
Proof.
  unfold to_datetime. intros H. apply mapM_Forall2 in H.
  apply mapM_Forall2.
  induction H as [|v w raw dates Hvw Hrest IH]; constructor.
  - now apply (to_datetime_cell_idem parse v).
  - exact IH.
Qed.

Lemma replace_column_idem (col : string) (s : Series)
  (l : list (string * Series)) :
  replace_column col s (replace_column col s l) = replace_column col s l.
Proof.
  induction l as [|[k v] rest IH]; simpl.
  - now rewrite String.eqb_refl.
  - destruct (String.eqb col k) eqn:E; simpl; rewrite E; [reflexivity|].
    now rewrite IH.
Qed.

Lemma setitem_idem (data : DataFrame) (col : string) (s : Series) :
  setitem (setitem data col s) col s = setitem data col s.
Proof. unfold setitem. simpl. now rewrite replace_column_idem. Qed.

(** Sales Trend Over Time, step by step. *)
Lemma SalesTrends_unfold parse (data : DataFrame) :
  SalesTrendsOverTime parse data
  = match getitem data "Date" with
    | Raise e => (Raise e, data)
    | Ok raw =>
        match to_datetime parse raw with
        | Raise e => (Raise e, data)
        | Ok dates =>
            (trend_after dates (getitem data "Sales"),
             setitem data "Date" dates)
        end
    end.
Proof.
  unfold SalesTrendsOverTime, bindM, read, lift, assign, ret.
  destruct (getitem data "Date") as [raw|e]; [|reflexivity].
  destruct (to_datetime parse raw) as [dates|e]; [|reflexivity].
  cbv beta iota. rewrite getitem_setitem_same. cbv beta iota.
  rewrite getitem_setitem_other by discriminate. unfold trend_after.
  destruct (getitem data "Sales") as [sales|e]; [|reflexivity].
  cbv beta iota. cbn [Py.bind].
  destruct (groups_sum _ sales) as [totals|e]; [|reflexivity].
  cbn. rewrite assemble_groups. unfold trend_frame.
  now rewrite length_map, !map_map.
Qed.

Lemma Monthly_unfold parse (data : DataFrame) :
  MonthlySalesDistribution parse data
  = match getitem data "Date" with
    | Raise e => (Raise e, data)
    | Ok raw =>
        match to_datetime parse raw with
        | Raise e => (Raise e, data)
        | Ok dates =>
            (monthly_after dates (getitem data "Sales"),
             setitem data "Date" dates)
        end
    end.
Proof.
  unfold MonthlySalesDistribution, bindM, read, lift, assign, ret.
  destruct (getitem data "Date") as [raw|e]; [|reflexivity].
  destruct (to_datetime parse raw) as [dates|e]; [|reflexivity].
  cbv beta iota. rewrite getitem_setitem_same. cbv beta iota.
  rewrite getitem_setitem_other by discriminate. unfold monthly_after.
  destruct (getitem data "Sales") as [sales|e]; [|reflexivity].
  cbv beta iota. cbn [Py.bind].
  destruct (groups_sum _ sales) as [totals|e]; [|reflexivity].
  cbn. unfold monthly_frame. now rewrite length_map, !map_map.
Qed.

Lemma dated_again parse (data : DataFrame)
  (after : Series -> result Series -> result Output) (run : M Output) :
  (forall d, run d
             = match getitem d "Date" with
               | Raise e => (Raise e, d)
               | Ok raw =>
                   match to_datetime parse raw with
                   | Raise e => (Raise e, d)
                   | Ok dates =>
                       (after dates (getitem d "Sales"),
                        setitem d "Date" dates)
                   end
               end) ->
  run (snd (run data)) = run data.
Proof.
  intros Hrun. rewrite (Hrun data).
  destruct (getitem data "Date") as [raw|e] eqn:Hd;
    [|cbn [snd]; now rewrite (Hrun data), Hd].
  destruct (to_datetime parse raw) as [dates|e] eqn:Ht;
    [|cbn [snd]; now rewrite (Hrun data), Hd, Ht].
  cbn [snd]. rewrite (Hrun (setitem data "Date" dates)).
  rewrite getitem_setitem_same, (to_datetime_idem parse raw dates Ht).
  rewrite setitem_idem.
  now rewrite getitem_setitem_other by discriminate.
Qed.

(** X1: every strategy but the correlation can be run again on the frame
    it leaves: the second run returns (or raises) what the first did and
    leaves the frame as the first left it.  The dates converted by the
    first run are read as they are by the second. *)
Theorem X1_run_again parse (strategy : DataProcess) (data : DataFrame) :
  strategy <> CorrelationAnalysis_ ->
  process_data parse strategy (snd (process_data parse strategy data))
  = process_data parse strategy data.
Proof.
  intros Hs. destruct strategy; cbn [process_data]; try contradiction.
  - apply (dated_again parse data trend_after). apply SalesTrends_unfold.
  - now rewrite (pure_state (fun d => groupby_sum d "Country" ["Profit"]) data
                 : snd (ProfitAnalysisByCountry data) = data).
  - now rewrite (pure_state
                   (fun d => groupby_sum d "Product" ["Sales"; "Profit"]) data
                 : snd (ProductPerformance data) = data).
  - now rewrite (pure_state
                   (fun d => getitem_list d ["Discount Band"; "Sales"; "Profit"])
                   data
                 : snd (DiscountImpactOnSales data) = data).
  - apply (dated_again parse data monthly_after). apply Monthly_unfold.
  - now rewrite (pure_state (fun d => groupby_sum d "Country" ["Sales"]) data
                 : snd (CountryWiseSalesDistribution data) = data).
Qed.

Lemma X1_run_again_witness :
  process_data iso_date SalesTrendsOverTime_
    (snd (process_data iso_date SalesTrendsOverTime_ sales_2020))
  = process_data iso_date SalesTrendsOverTime_ sales_2020.
Proof. apply X1_run_again. discriminate. Defined.

(** ** What a strategy reads *)

Lemma agree_getitem (cols : list string) (d1 d2 : DataFrame) (c : string) :
  agree_on cols d1 d2 -> In c cols -> getitem d1 c = getitem d2 c.
Proof. intros [_ H] Hin. unfold getitem. now rewrite (H c Hin). Qed.

Lemma agree_select (cols all : list string) (d1 d2 : DataFrame) :
  agree_on all d1 d2 -> incl cols all ->
  mapM (fun c => (s <- getitem d1 c ;; Ok (c, s))%py) cols
  = mapM (fun c => (s <- getitem d2 c ;; Ok (c, s))%py) cols.
Proof.
  intros Hag. induction cols as [|c cols IH]; intros Hincl; simpl.
  - reflexivity.
  - rewrite (agree_getitem all d1 d2 c Hag) by (apply Hincl; now left).
    rewrite IH; [reflexivity|]. intros x Hx. apply Hincl. now right.
Qed.

Lemma agree_groupby_sum (d1 d2 : DataFrame) (key : string)
  (cols : list string) :
  agree_on (key :: cols) d1 d2 ->
  groupby_sum d1 key cols = groupby_sum d2 key cols.
Proof.
  intros Hag. unfold groupby_sum.
  rewrite (agree_getitem _ d1 d2 key Hag) by now left.
  rewrite (agree_select cols (key :: cols) d1 d2 Hag);
    [reflexivity | intros x Hx; now right].
Qed.

Lemma agree_getitem_list (d1 d2 : DataFrame) (cols : list string) :
  agree_on cols d1 d2 -> getitem_list d1 cols = getitem_list d2 cols.
Proof.
  intros Hag. unfold getitem_list.
  rewrite (agree_select cols cols d1 d2 Hag (incl_refl _)).
  destruct Hag as [-> _]. reflexivity.
Qed.

Lemma agree_convert_columns (cols all : list string) :
  incl cols all ->
  forall d1 d2 : DataFrame,
    agree_on all d1 d2 ->
    fst (convert_columns cols d1) = fst (convert_columns cols d2)
    /\ agree_on all (snd (convert_columns cols d1))
                    (snd (convert_columns cols d2)).
Proof.
  induction cols as [|c cols IH]; intros Hincl d1 d2 Hag; simpl.
  - auto.
  - unfold bindM, read, assign.
    rewrite (agree_getitem all d1 d2 c Hag) by (apply Hincl; now left).
    destruct (getitem d2 c) as [s|e]; [|auto].
    cbv beta iota. apply IH; [intros x Hx; apply Hincl; now right|].
    destruct Hag as [Hn Hl]. split; [exact Hn|].
    intros x Hx. unfold setitem. simpl.
    destruct (string_dec x c) as [-> | Hne].
    + now rewrite !lookup_replace_same.
    + rewrite !lookup_replace_other by assumption. now apply Hl.
Qed.

Lemma agree_Correlation (d1 d2 : DataFrame) :
  agree_on numeric_columns d1 d2 ->
  fst (CorrelationAnalysis d1) = fst (CorrelationAnalysis d2).
Proof.
  intros Hag.
  destruct (agree_convert_columns numeric_columns numeric_columns
              (incl_refl _) d1 d2 Hag) as [Hfst Hsnd].
  unfold CorrelationAnalysis, bindM, get, lift, ret.
  destruct (convert_columns numeric_columns d1) as [r1 e1].
  destruct (convert_columns numeric_columns d2) as [r2 e2].
  simpl in Hfst, Hsnd. subst r2.
  destruct r1 as [u|e]; [|reflexivity].
  rewrite (agree_getitem_list e1 e2 numeric_columns Hsnd).
  destruct (getitem_list e2 numeric_columns); reflexivity.
Qed.

Lemma outcome_reads_only parse (strategy : DataProcess) (d1 d2 : DataFrame) :
  agree_on (required_columns strategy) d1 d2 ->
  fst (process_data parse strategy d1) = fst (process_data parse strategy d2).
Proof.
  intros Hag. destruct strategy; cbn [process_data required_columns] in *.
  - rewrite !SalesTrends_unfold.
    rewrite (agree_getitem _ d1 d2 "Date" Hag) by now left.
    rewrite (agree_getitem _ d1 d2 "Sales" Hag) by (right; now left).
    destruct (getitem d2 "Date") as [raw|e]; [|reflexivity].
    destruct (to_datetime parse raw); reflexivity.
  - unfold ProfitAnalysisByCountry.
    rewrite !(pure_result (fun d => groupby_sum d "Country" ["Profit"])).
    now rewrite (agree_groupby_sum d1 d2 _ _ Hag).
  - unfold ProductPerformance.
    rewrite !(pure_result
                (fun d => groupby_sum d "Product" ["Sales"; "Profit"])).
    now rewrite (agree_groupby_sum d1 d2 _ _ Hag).
  - unfold DiscountImpactOnSales.
    rewrite !(pure_result
                (fun d => getitem_list d ["Discount Band"; "Sales"; "Profit"])).
    now rewrite (agree_getitem_list d1 d2 _ Hag).
  - rewrite !Monthly_unfold.
    rewrite (agree_getitem _ d1 d2 "Date" Hag) by now left.
    rewrite (agree_getitem _ d1 d2 "Sales" Hag) by (right; now left).
    destruct (getitem d2 "Date") as [raw|e]; [|reflexivity].
    destruct (to_datetime parse raw); reflexivity.
  - unfold CountryWiseSalesDistribution.
    rewrite !(pure_result (fun d => groupby_sum d "Country" ["Sales"])).
    now rewrite (agree_groupby_sum d1 d2 _ _ Hag).
  - now apply agree_Correlation.
Qed.

(** X2: what a strategy returns or raises depends on nothing but the
    number of rows and the columns it reads: two frames that agree on them
    give the same outcome. *)
Theorem X2_reads_only_required parse (strategy : DataProcess)
  (d1 d2 : DataFrame) :
  agree_on (required_columns strategy) d1 d2 ->
  fst (process_data parse strategy d1) = fst (process_data parse strategy d2).
Proof. apply outcome_reads_only. Qed.

Lemma X2_reads_only_required_witness :
  fst (process_data iso_date ProfitAnalysisByCountry_ no_sales)
  = fst (process_data iso_date ProfitAnalysisByCountry_
           (setitem no_sales "Date" [NaN; NaN])).
Proof.
  apply X2_reads_only_required. split; [reflexivity|].
  intros c [<- | [<- | []]]; reflexivity.
Defined.

(** ** The script at start *)

Lemma bindM_fst {A B} (m : M A) (k : A -> M B) (d : DataFrame) :
  fst (bindM m k d)
  = match fst (m d) with
    | Ok a => fst (k a (snd (m d)))
    | Raise e => Raise e
    end.
Proof. unfold bindM. destruct (m d) as [[a|e] d']; reflexivity. Qed.

Lemma bindM_snd_pure {A B} (m : M A) (k : A -> M B) (d : DataFrame) (a : A) :
  fst (m d) = Ok a -> snd (m d) = d -> bindM m k d = k a d.
Proof.
  unfold bindM. destruct (m d) as [[a'|e] d']; simpl; intros H1 H2;
    [|discriminate]. inversion H1. now subst.
Qed.

Lemma after_SalesTrends_agree parse (data : DataFrame) (cols : list string) :
  ~ In "Date" cols ->
  agree_on cols (snd (SalesTrendsOverTime parse data)) data.
Proof.
  intros Hno.
  destruct (SalesTrends_state parse data) as [-> | [raw [dates [_ [_ ->]]]]].
  - split; auto.
  - split; [reflexivity|]. intros c Hc. unfold setitem. simpl.
    apply lookup_replace_other. intros ->. contradiction.
Qed.

Lemma pure_strategy_state parse (strategy : DataProcess) (d : DataFrame) :
  assigned_columns strategy = [] ->
  snd (process_data parse strategy d) = d.
Proof.
  destruct strategy; cbn [assigned_columns process_data]; intros H;
    try discriminate.
  - exact (pure_state (fun d => groupby_sum d "Country" ["Profit"]) d).
  - exact (pure_state
             (fun d => groupby_sum d "Product" ["Sales"; "Profit"]) d).
  - exact (pure_state
             (fun d => getitem_list d ["Discount Band"; "Sales"; "Profit"]) d).
  - exact (pure_state (fun d => groupby_sum d "Country" ["Sales"]) d).
Qed.

(** One step of the script after the first: a strategy that does not read
    the Date column, run on the frame the earlier steps left. *)
Lemma startup_step parse (strategy : DataProcess) (data d : DataFrame)
  {B} (k : Output -> M B) :
  agree_on (required_columns strategy) d data ->
  fst (bindM (process_data parse strategy) k d)
  = match fst (process_data parse strategy data) with
    | Ok a => fst (k a (snd (process_data parse strategy d)))
    | Raise e => Raise e
    end.
Proof.
  intros Hag. rewrite bindM_fst.
  now rewrite (outcome_reads_only parse strategy d data Hag).
Qed.

Lemma startup_runs parse (data : DataFrame) :
  fst (startup parse data) = independently parse data.
Proof.
  unfold startup, independently, process, set_strategy. cbn [_strategy].
  rewrite bindM_fst.
  destruct (fst (process_data parse SalesTrendsOverTime_ data)) as [o1|e];
    [|reflexivity].
  cbn [Py.bind].
  set (d1 := snd (process_data parse SalesTrendsOverTime_ data)).
  assert (Hag : forall cols, ~ In "Date" cols -> agree_on cols d1 data)
    by (intros; now apply (after_SalesTrends_agree parse data)).
  assert (Hno : forall strategy,
             strategy <> SalesTrendsOverTime_ ->
             strategy <> MonthlySalesDistribution_ ->
             ~ In "Date" (required_columns strategy)).
  { intros strategy H1 H2.
    destruct strategy; try contradiction; simpl;
      intros H; repeat (destruct H as [H | H]; [discriminate H|]); exact H. }
  rewrite (startup_step parse ProfitAnalysisByCountry_ data d1)
    by (apply Hag, Hno; discriminate).
  destruct (fst (process_data parse ProfitAnalysisByCountry_ data))
    as [o2|e]; [|reflexivity].
  rewrite (pure_strategy_state parse ProfitAnalysisByCountry_ d1 eq_refl).
  rewrite (startup_step parse ProductPerformance_ data d1)
    by (apply Hag, Hno; discriminate).
  destruct (fst (process_data parse ProductPerformance_ data))
    as [o3|e]; [|reflexivity].
  rewrite (pure_strategy_state parse ProductPerformance_ d1 eq_refl).
  rewrite (startup_step parse DiscountImpactOnSales_ data d1)
    by (apply Hag, Hno; discriminate).
  destruct (fst (process_data parse DiscountImpactOnSales_ data))
    as [o4|e]; [|reflexivity].
  rewrite (pure_strategy_state parse DiscountImpactOnSales_ d1 eq_refl).
  rewrite (startup_step parse CountryWiseSalesDistribution_ data d1)
    by (apply Hag, Hno; discriminate).
  destruct (fst (process_data parse CountryWiseSalesDistribution_ data))
    as [o5|e]; [|reflexivity].
  rewrite (pure_strategy_state parse CountryWiseSalesDistribution_ d1 eq_refl).
  rewrite (startup_step parse CorrelationAnalysis_ data d1)
    by (apply Hag, Hno; discriminate).
  destruct (fst (process_data parse CorrelationAnalysis_ data))
    as [o6|e]; reflexivity.
Qed.

(** X3: the script runs the six strategies on one frame, which two of them
    assign to; in the order of the script the six aggregates are those the
    strategies return each on a copy of its own of the frame as loaded, and
    the script raises what the first failing one of them raises. *)
Theorem X3_startup_independent parse (data : DataFrame) :
  fst (startup parse data) = independently parse data.
Proof. apply startup_runs. Qed.

(** ** Correlation Matrix run twice, and stopped half way *)

Lemma convert_currency_twice (v : pyobj) :
  convert_currency (convert_currency v) = NaN.
Proof.
  destruct (convert_currency_float v) as [f ->].
  now apply convert_currency_not_text.
Qed.

Lemma after_Correlation (data : DataFrame) :
  (forall col, In col numeric_columns -> lookup col (columns data) <> None) ->
  forall col, In col numeric_columns ->
    lookup col (columns (snd (CorrelationAnalysis data)))
    = Some (normalized data col).
Proof.
  intros Hall. rewrite Correlation_state.
  now apply (convert_columns_ok numeric_columns numeric_columns_NoDup data).
Qed.

Lemma complete_pairs_missing (a b : Series) :
  (forall v, In v a -> finite v = None) -> complete_pairs a b = [].
Proof.
  revert b. induction a as [|u a IH]; intros b H; [reflexivity|].
  destruct b as [|v b]; [reflexivity|]. simpl.
  rewrite (H u) by now left. apply IH. intros w Hw. apply H. now right.
Qed.

Lemma entry_outside (df : DataFrame) (i j : nat) :
  (List.length (columns df) <= i)%nat \/ (List.length (columns df) <= j)%nat ->
  entry (corr df) i j = None.
Proof.
  intros H. rewrite entry_corr. destruct H as [H | H].
  - apply nth_error_None in H. now rewrite H.
  - apply nth_error_None in H. rewrite H.
    destruct (nth_error (columns df) i); reflexivity.
Qed.

(** X4: the correlation strategy cannot be run again on the frame it
    leaves.  The first run has made floats of the seven columns, and a float
    has no [replace]: after the second run every cell of the seven columns
    is NaN, and the matrix the second run returns has no entry at all. *)
Theorem X4_correlation_run_twice (data : DataFrame) :
  (forall col, In col numeric_columns -> lookup col (columns data) <> None) ->
  let data1 := snd (CorrelationAnalysis data) in
  (forall col, In col numeric_columns ->
     lookup col (columns (snd (CorrelationAnalysis data1)))
     = Some (map (fun _ => NaN) (normalized data col)))
  /\ exists m : CorrMatrix,
      fst (CorrelationAnalysis data1) = Ok (Matrix m)
      /\ forall i j, entry m i j = None.
Proof.
  intros Hall data1.
  pose proof (after_Correlation data Hall) as H1. fold data1 in H1.
  assert (Hall1 : forall col, In col numeric_columns ->
                    lookup col (columns data1) <> None)
    by (intros col Hc; rewrite (H1 col Hc); discriminate).
  assert (Hnorm : forall col, In col numeric_columns ->
                    normalized data1 col
                    = map (fun _ => NaN) (normalized data col)).
  { intros col Hc. unfold normalized at 1. rewrite (H1 col Hc).
    unfold normalized. destruct (lookup col (columns data)) as [s|];
      [|reflexivity].
    rewrite !map_map. apply map_ext. intros v.
    apply convert_currency_twice. }
  split.
  - intros col Hc. rewrite (after_Correlation data1 Hall1 col Hc).
    now rewrite Hnorm.
  - exists (corr (normalized_frame data1)).
    split; [now apply Correlation_run|].
    intros i j.
    destruct (Nat.lt_ge_cases i 7) as [Hi | Hi];
      [|apply entry_outside; left; exact Hi].
    destruct (Nat.lt_ge_cases j 7) as [Hj | Hj];
      [|apply entry_outside; right; exact Hj].
    rewrite (entry_normalized data1 i j Hi Hj).
    rewrite Hnorm by (apply nth_In; exact Hi).
    rewrite complete_pairs_missing; [reflexivity|].
    intros v Hv. apply in_map_iff in Hv. destruct Hv as [w [<- _]].
    reflexivity.
Qed.

Lemma X4_correlation_run_twice_witness :
  exists m : CorrMatrix,
    fst (CorrelationAnalysis (snd (CorrelationAnalysis currency_rows)))
    = Ok (Matrix m)
    /\ forall i j, entry m i j = None.
Proof.
  apply (X4_correlation_run_twice currency_rows).
  intros col H. simpl in H.
  repeat (destruct H as [<- | H]; [discriminate|]). destruct H.
Defined.

Lemma convert_columns_stopped (pre : list string) (col : string)
  (post : list string) :
  NoDup pre ->
  forall data : DataFrame,
    (forall c, In c pre -> lookup c (columns data) <> None) ->
    lookup col (columns data) = None ->
    let run := convert_columns (pre ++ col :: post) data in
    fst run = Raise (KeyError col)
    /\ (forall c, In c pre ->
          lookup c (columns (snd run)) = Some (normalized data c))
    /\ (forall c, ~ In c pre ->
          lookup c (columns (snd run)) = lookup c (columns data)).
Proof.
  induction 1 as [|c pre Hnot Hnd IH]; intros data Hpre Hcol; cbv zeta.
  - simpl. unfold bindM, read, getitem. rewrite Hcol. simpl.
    split; [reflexivity|]. split; [intros c [] | reflexivity].
  - simpl. unfold bindM, read, assign, getitem.
    destruct (lookup c (columns data)) as [s|] eqn:Ec;
      [|exfalso; apply (Hpre c); [now left | assumption]].
    cbv beta iota.
    set (d1 := setitem data c (map convert_currency s)).
    assert (Hcc : col <> c) by (intros ->; congruence).
    destruct (IH d1) as [Hr [Hin Hout]].
    { intros x Hx. unfold d1, setitem. simpl.
      rewrite lookup_replace_other by (intros ->; contradiction).
      apply Hpre. now right. }
    { unfold d1, setitem. simpl. now rewrite lookup_replace_other. }
    split; [exact Hr|]. split.
    + intros x [<- | Hx].
      * rewrite (Hout c Hnot). unfold d1, setitem, normalized. simpl.
        now rewrite lookup_replace_same, Ec.
      * rewrite (Hin x Hx). unfold d1.
        apply f_equal, normalized_setitem. intros ->. contradiction.
    + intros x Hx. rewrite Hout by (intros Hx'; apply Hx; now right).
      unfold d1, setitem. simpl. apply lookup_replace_other.
      intros ->. apply Hx. now left.
Qed.

(** X5: when one of the seven columns is absent the correlation strategy
    raises [KeyError] for the first absent one, in the order of the loop,
    and leaves the frame half done: the columns before it are converted
    already, every other column is as it was. *)
Theorem X5_correlation_stopped (data : DataFrame) (pre : list string)
  (col : string) (post : list string) :
  numeric_columns = pre ++ col :: post ->
  (forall c, In c pre -> lookup c (columns data) <> None) ->
  lookup col (columns data) = None ->
  fst (CorrelationAnalysis data) = Raise (KeyError col)
  /\ (forall c, In c pre ->
        lookup c (columns (snd (CorrelationAnalysis data)))
        = Some (normalized data c))
  /\ (forall c, ~ In c pre ->
        lookup c (columns (snd (CorrelationAnalysis data)))
        = lookup c (columns data)).
Proof.
  intros Hsplit Hpre Hcol.
  assert (Hnd : NoDup pre).
  { pose proof numeric_columns_NoDup as H. rewrite Hsplit in H.
    now apply NoDup_app_remove_r in H. }
  destruct (convert_columns_stopped pre col post Hnd data Hpre Hcol)
    as [Hr [Hin Hout]].
  rewrite Correlation_state, Hsplit.
  split; [|split; assumption].
  unfold CorrelationAnalysis, bindM. rewrite Hsplit.
  destruct (convert_columns (pre ++ col :: post) data) as [[u|e] d'];
    simpl in Hr; [discriminate|].
  simpl. now inversion Hr.
Qed.

Lemma X5_correlation_stopped_witness :
  fst (CorrelationAnalysis two_columns) = Raise (KeyError "Sale Price")
  /\ lookup "Units Sold" (columns (snd (CorrelationAnalysis two_columns)))
     = Some (normalized two_columns "Units Sold").
Proof.
  destruct (X5_correlation_stopped two_columns
              ["Units Sold"; "Manufacturing Price"] "Sale Price"
              ["Gross Sales"; "Discounts"; "Sales"; "Profit"] eq_refl)
    as [Hr [Hin _]].
  - intros c [<- | [<- | []]]; discriminate.
  - reflexivity.
  - split; [exact Hr|]. apply Hin. now left.
Defined.

(** ** The monthly distribution *)






(** ** The frames the strategies return *)

Lemma groups_sum_length {K} (groups : list (K * list nat))
  (s totals : Series) :
  groups_sum groups s = Ok totals ->
  List.length totals = List.length groups.
Proof. apply mapM_length. Qed.

Lemma output_shape parse (strategy : DataProcess) (data out : DataFrame) :
  well_formed data ->
  fst (process_data parse strategy data) = Ok (Frame out) ->
  well_formed out /\ column_names out = returned_columns strategy.
Proof.
  intros Hwf Hrun.
  destruct strategy; cbn [process_data] in Hrun.
  - (* Sales Trend Over Time *)
    rewrite SalesTrends_unfold in Hrun.
    destruct (getitem data "Date") as [raw|e]; [|discriminate].
    destruct (to_datetime parse raw) as [dates|e]; [|discriminate].
    cbn [fst] in Hrun. unfold trend_after in Hrun.
    destruct (getitem data "Sales") as [sales|e]; [|discriminate].
    cbn [Py.bind] in Hrun.
    destruct (groups_sum _ sales) as [totals|e] eqn:Eg; [|discriminate].
    inversion Hrun; subst out. apply groups_sum_length in Eg. split.
    + unfold well_formed, trend_frame. simpl.
      repeat constructor; simpl; rewrite ?length_map; auto.
    + reflexivity.
  - (* Profit by Category *)
    unfold ProfitAnalysisByCountry in Hrun.
    rewrite (pure_result (fun d => groupby_sum d "Country" ["Profit"]))
      in Hrun.
    unfold groupby_sum in Hrun.
    destruct (getitem data "Country") as [keys|e]; [|discriminate].
    cbn [Py.bind mapM] in Hrun.
    destruct (getitem data "Profit") as [profit|e]; [|discriminate].
    cbn [Py.bind mapM fst snd] in Hrun.
    destruct (groups_sum _ profit) as [totals|e] eqn:Eg; [|discriminate].
    cbn [Py.bind] in Hrun. inversion Hrun; subst out.
    apply groups_sum_length in Eg. split.
    + unfold well_formed. simpl.
      repeat constructor; simpl; rewrite ?length_map; auto.
    + reflexivity.
  - (* Performance by Entity *)
    unfold ProductPerformance in Hrun.
    rewrite (pure_result
               (fun d => groupby_sum d "Product" ["Sales"; "Profit"]))
      in Hrun.
    unfold groupby_sum in Hrun.
    destruct (getitem data "Product") as [keys|e]; [|discriminate].
    cbn [Py.bind mapM] in Hrun.
    destruct (getitem data "Sales") as [sales|e]; [|discriminate].
    cbn [Py.bind mapM] in Hrun.
    destruct (getitem data "Profit") as [profit|e]; [|discriminate].
    cbn [Py.bind mapM fst snd] in Hrun.
    destruct (groups_sum _ sales) as [tsales|e] eqn:Egs; [|discriminate].
    cbn [Py.bind] in Hrun.
    destruct (groups_sum _ profit) as [tprofit|e] eqn:Egp; [|discriminate].
    cbn [Py.bind] in Hrun. inversion Hrun; subst out.
    apply groups_sum_length in Egs. apply groups_sum_length in Egp. split.
    + unfold well_formed. simpl.
      repeat constructor; simpl; rewrite ?length_map; auto.
    + reflexivity.
  - (* Discount Impact *)
    unfold DiscountImpactOnSales in Hrun.
    rewrite (pure_result
               (fun d => getitem_list d ["Discount Band"; "Sales"; "Profit"]))
      in Hrun.
    unfold getitem_list in Hrun. cbn [mapM Py.bind] in Hrun.
    destruct (getitem data "Discount Band") as [band|e] eqn:Eb;
      [|discriminate].
    cbn [Py.bind] in Hrun.
    destruct (getitem data "Sales") as [sales|e] eqn:Es; [|discriminate].
    cbn [Py.bind] in Hrun.
    destruct (getitem data "Profit") as [profit|e] eqn:Ep; [|discriminate].
    cbn [Py.bind] in Hrun. inversion Hrun; subst out. split.
    + unfold well_formed. simpl.
      repeat constructor; simpl;
        eapply well_formed_length; eassumption.
    + reflexivity.
  - (* the monthly distribution *)
    rewrite Monthly_unfold in Hrun.
    destruct (getitem data "Date") as [raw|e]; [|discriminate].
    destruct (to_datetime parse raw) as [dates|e]; [|discriminate].
    cbn [fst] in Hrun. unfold monthly_after in Hrun.
    destruct (getitem data "Sales") as [sales|e]; [|discriminate].
    cbn [Py.bind] in Hrun.
    destruct (groups_sum _ sales) as [totals|e] eqn:Eg; [|discriminate].
    inversion Hrun; subst out. apply groups_sum_length in Eg. split.
    + unfold well_formed, monthly_frame. simpl.
      repeat constructor; simpl; rewrite ?length_map; auto.
    + reflexivity.
  - (* Distribution by Category *)
    unfold CountryWiseSalesDistribution in Hrun.
    rewrite (pure_result (fun d => groupby_sum d "Country" ["Sales"]))
      in Hrun.
    unfold groupby_sum in Hrun.
    destruct (getitem data "Country") as [keys|e]; [|discriminate].
    cbn [Py.bind mapM] in Hrun.
    destruct (getitem data "Sales") as [sales|e]; [|discriminate].
    cbn [Py.bind mapM fst snd] in Hrun.
    destruct (groups_sum _ sales) as [totals|e] eqn:Eg; [|discriminate].
    cbn [Py.bind] in Hrun. inversion Hrun; subst out.
    apply groups_sum_length in Eg. split.
    + unfold well_formed. simpl.
      repeat constructor; simpl; rewrite ?length_map; auto.
    + reflexivity.
  - (* the correlation returns a matrix *)
    destruct (Correlation_cases data) as [E | [col [_ [_ E]]]];
      rewrite E in Hrun; discriminate.
Qed.


(** X8: a strategy that returns a frame for a well-formed frame returns a
    well-formed one, under the column names of that strategy, which are
    distinct: every column of the output has one cell per row of the
    output. *)
Theorem X8_output_well_formed parse (strategy : DataProcess)
  (data out : DataFrame) :
  well_formed data ->
  fst (process_data parse strategy data) = Ok (Frame out) ->
  well_formed out
  /\ column_names out = returned_columns strategy
  /\ NoDup (column_names out).
Proof.
  intros Hwf Hrun.
  destruct (output_shape parse strategy data out Hwf Hrun) as [Hout Hnames].
  split; [exact Hout|]. split; [exact Hnames|]. rewrite Hnames.
  destruct strategy; try apply numeric_columns_NoDup;
    repeat constructor; simpl; intuition discriminate.
Qed.

Lemma X8_output_well_formed_witness :
  exists out : DataFrame,
    fst (process_data iso_date ProductPerformance_ financials)
    = Ok (Frame out)
    /\ well_formed out.
Proof.
  eexists. split; [reflexivity|].
  eapply (X8_output_well_formed iso_date ProductPerformance_ financials).
  - repeat constructor.
  - reflexivity.
Defined.

(** ** Correlation Matrix on any cells *)

(** X9: with the seven columns present the correlation strategy returns,
    whatever their cells hold (text, numbers, dates, nothing): it returns
    the correlation of the normalized columns, which have the length of
    the columns given and hold floats only. *)
Theorem X9_correlation_any_cells (data : DataFrame) :
  (forall col, In col numeric_columns -> lookup col (columns data) <> None) ->
  fst (CorrelationAnalysis data) = Ok (Matrix (corr (normalized_frame data)))
  /\ forall col s, In col numeric_columns ->
       lookup col (columns data) = Some s ->
       lookup col (columns (snd (CorrelationAnalysis data)))
       = Some (normalized data col)
       /\ List.length (normalized data col) = List.length s
       /\ Forall (fun v => exists f, v = OFloat f) (normalized data col).
Proof.
  intros Hall. split; [now apply Correlation_run|].
  intros col s Hcol Hs. split; [now apply after_Correlation|].
  unfold normalized. rewrite Hs. split; [apply length_map|].
  apply Forall_forall. intros v Hv. apply in_map_iff in Hv.
  destruct Hv as [w [<- _]]. apply convert_currency_float.
Qed.

Lemma X9_correlation_any_cells_witness :
  fst (CorrelationAnalysis numeric_units)
  = Ok (Matrix (corr (normalized_frame numeric_units))).
Proof.
  apply X9_correlation_any_cells. intros col H. simpl in H.
  repeat (destruct H as [<- | H]; [discriminate|]). destruct H.
Defined.

(** ** The dynamic chart and the keys of the rows *)











(** ** The logger's message *)

Lemma run_stdout (cs : list Singleton.call) :
  forall s : Singleton.state,
    Singleton.stdout (snd (Singleton.run cs s))
    = (Singleton.stdout s
       ++ match Singleton._instance s with
          | None => if calls_instance cs
                    then ["Creating new instance"] else []
          | Some _ => []
          end)%list
    /\ (Singleton._instance (snd (Singleton.run cs s)) = None
        <-> Singleton._instance s = None /\ calls_instance cs = false).
Proof.
  induction cs as [|c cs IH]; intros s.
  - simpl. destruct (Singleton._instance s); rewrite app_nil_r; intuition.
  - cbn [Singleton.run].
    destruct (Singleton.step c s) as [r s1] eqn:Estep.
    destruct (IH s1) as [IHout IHinst].
    destruct (Singleton.run cs s1) as [rs s2] eqn:Erun.
    cbn [snd] in *. rewrite IHout, IHinst.
    destruct c; simpl in Estep.
    + (* the constructor: an object is made and dropped *)
      inversion Estep; subst. simpl. intuition.
    + unfold Singleton.instance in Estep.
      destruct (Singleton._instance s) as [o|] eqn:Ei.
      * inversion Estep; subst. rewrite Ei. simpl.
        split; [reflexivity|]. intuition discriminate.
      * inversion Estep; subst. simpl. rewrite <- app_assoc. simpl.
        split; [reflexivity|]. intuition discriminate.
Qed.

(** X13: over any sequence of calls of [Logger()] and [Logger.instance()]
    from the state of the class at import, "Creating new instance" is
    printed once if [instance()] is called at all and never otherwise, and
    nothing else is printed; the class holds an instance afterwards exactly
    when [instance()] was called. *)
Theorem X13_logger_created_once (cs : list Singleton.call) :
  let s := snd (Singleton.run cs Singleton.initial) in
  Singleton.stdout s
  = (if calls_instance cs then ["Creating new instance"] else [])
  /\ (Singleton._instance s <> None <-> calls_instance cs = true).
Proof.
  destruct (run_stdout cs Singleton.initial) as [Hout Hinst].
  cbv zeta. split; [exact Hout|].
  rewrite Hinst. simpl. destruct (calls_instance cs); intuition congruence.
Qed.

(** ** Separators and currency signs *)

Lemma string_app_assoc (x y z : string) :
  (x ++ (y ++ z))%string = ((x ++ y) ++ z)%string.
Proof. induction x as [|c x IH]; simpl; [reflexivity | now rewrite IH]. Qed.

Lemma replace_app (a b : string) (c : ascii) (new : string) :
  PyStr.replace (a ++ b) c new
  = (PyStr.replace a c new ++ PyStr.replace b c new)%string.
Proof.
  induction a as [|x a IH]; simpl; [reflexivity|].
  destruct (Ascii.eqb x c); rewrite IH.
  - apply string_app_assoc.
  - reflexivity.
Qed.

Lemma replace_drop (a b : string) (c : ascii) :
  PyStr.replace (a ++ String c b) c "" = PyStr.replace (a ++ b) c "".
Proof.
  rewrite !replace_app. simpl. now rewrite Ascii.eqb_refl.
Qed.

(** X11: in a text cell a comma or a dollar sign counts for nothing,
    wherever it stands: the cell with the character and the cell without it
    are converted to the same value. *)
Theorem X11_separators_ignored (a b : string) (c : ascii) :
  c = ","%char \/ c = "$"%char ->
  convert_currency (OStr (a ++ String c b)) = convert_currency (OStr (a ++ b)).
Proof.
  intros Hc. rewrite !convert_currency_text. cbv zeta.
  assert (E : PyStr.replace (PyStr.replace (a ++ String c b) "," "") "$" ""
              = PyStr.replace (PyStr.replace (a ++ b) "," "") "$" "").
  { destruct Hc as [-> | ->].
    - now rewrite replace_drop.
    - rewrite (replace_app a (String "$" b)), (replace_app a b).
      simpl. rewrite !replace_app. simpl. reflexivity. }
  now rewrite E.
Qed.

Lemma X11_separators_ignored_witness :
  convert_currency (OStr "1,234") = convert_currency (OStr "1234").
Proof.
  apply (X11_separators_ignored "1" "234" ","%char). now left.
Defined.

(** ** The orders *)

Lemma total_from_spec (l : list (Z * Z)) :
  forall (pre : list (Z * Z)) (total : Z),
    Orders.total_from (List.length pre) (List.length l)
      (map fst (pre ++ l)) (map snd (pre ++ l)) total
    = Orders.Returns (total + zsum (map (fun x => fst x * snd x) l)).
Proof.
  induction l as [|x l IH]; intros pre total; simpl.
  - f_equal. ring.
  - rewrite !nth_error_map, nth_error_app2, Nat.sub_diag by lia. simpl.
    replace (pre ++ x :: l) with ((pre ++ [x]) ++ l)
      by (now rewrite <- app_assoc).
    replace (S (List.length pre)) with (List.length (pre ++ [x]))
      by (rewrite length_app; simpl; lia).
    rewrite IH. f_equal. ring.
Qed.

(** The three lists of the class after the calls. *)
Lemma run_lists (cs : list Orders.call) :
  forall s : Orders.state,
    exists added : list (Z * Z),
      Orders.quantities (Orders.run cs s)
      = Orders.quantities s ++ map fst added
      /\ Orders.price (Orders.run cs s) = Orders.price s ++ map snd added
      /\ zsum (map (fun x => fst x * snd x) added)
         = zsum (map Orders.amount cs).
Proof.
  induction cs as [|c cs IH]; intros s.
  - exists []. simpl. now rewrite !app_nil_r.
  - simpl. destruct (IH (Orders.step c s)) as [added [Hq [Hp Hsum]]].
    unfold Orders.run in *. rewrite Hq, Hp.
    destruct c as [self name q p | self t code].
    + exists ((q, p) :: added). simpl. rewrite <- !app_assoc.
      repeat split. now rewrite Hsum.
    + exists added. simpl.
      assert (E : Orders.quantities
                    (snd (Orders.pay self t code s)) = Orders.quantities s
                  /\ Orders.price (snd (Orders.pay self t code s))
                     = Orders.price s).
      { unfold Orders.pay.
        destruct (String.eqb t "debit"); [split; reflexivity|].
        destruct (String.eqb t "credit"); split; reflexivity. }
      destruct E as [-> ->]. repeat split. exact Hsum.
Qed.

Lemma run_status (cs : list Orders.call) (o : Orders.ref) :
  forall s : Orders.state,
    Orders.get_status o (Orders.run cs s)
    = if existsb (Orders.pays o) cs then "paid" else Orders.get_status o s.
Proof.
  assert (Hpaid : forall cs s,
             Orders.get_status o s = "paid" ->
             Orders.get_status o (Orders.run cs s) = "paid").
  { induction cs0 as [|c cs0 IH]; intros s Hs; [exact Hs|].
    simpl. apply IH. destruct c as [self name q p | self t code];
      [exact Hs|].
    simpl. unfold Orders.pay.
    destruct (String.eqb t "debit"); [|destruct (String.eqb t "credit")];
      simpl; try exact Hs;
      unfold Orders.get_status; simpl;
      destruct (Nat.eqb self o); try reflexivity; exact Hs. }
  induction cs as [|c cs IH]; intros s; [reflexivity|].
  simpl. fold (Orders.run cs (Orders.step c s)).
  destruct (Orders.pays o c) eqn:Ep; simpl.
  - apply Hpaid. destruct c as [self name q p | self t code];
      [discriminate|].
    simpl in Ep. apply andb_true_iff in Ep. destruct Ep as [Eo Et].
    simpl. unfold Orders.pay.
    destruct (String.eqb t "debit"); [|destruct (String.eqb t "credit")];
      try discriminate;
      unfold Orders.get_status; simpl; now rewrite Eo.
  - rewrite IH. destruct (existsb (Orders.pays o) cs); [reflexivity|].
    destruct c as [self name q p | self t code]; [reflexivity|].
    simpl in *. unfold Orders.pay.
    destruct (String.eqb t "debit") eqn:Ed;
      [|destruct (String.eqb t "credit") eqn:Ec]; simpl; try reflexivity;
      rewrite ?orb_true_r, ?andb_true_r, ?orb_true_l in Ep;
      unfold Orders.get_status; simpl; now rewrite Ep.
Qed.

(** X14: the items are lists of the class, shared by all orders, and the
    status is the order's own.  After any calls of [add_item] and [pay], on
    any orders, made from the state at import, the total of every order is
    the sum of quantity times price over all the items added, to whatever
    order, and never an [IndexError]; an order is "paid" exactly when a
    debit or credit payment was made on that order, and "open" otherwise. *)
Theorem X14_orders_share_items (cs : list Orders.call) (o : Orders.ref) :
  let s := Orders.run cs Orders.initial in
  Orders.total_price o s = Orders.Returns (zsum (map Orders.amount cs))
  /\ Orders.get_status o s
     = if existsb (Orders.pays o) cs then "paid" else "open".
Proof.
  cbv zeta. split; [|apply run_status].
  destruct (run_lists cs Orders.initial) as [added [Hq [Hp Hsum]]].
  unfold Orders.total_price. rewrite Hq, Hp. simpl.
  rewrite length_map, <- Hsum. exact (total_from_spec added [] 0).
Qed.

(** ** The selected chart *)

Lemma lookup_present {A} (c : string) (l : list (string * A)) :
  In c (map fst l) -> exists v, lookup c l = Some v.
Proof.
  induction l as [|[k v] rest IH]; simpl; [intros []|].
  intros H. destruct (String.eqb c k) eqn:E; [now exists v|].
  apply IH. destruct H as [H | H]; [|exact H].
  subst k. now rewrite String.eqb_refl in E.
Qed.

Lemma xy_columns (out : DataFrame) (c1 c2 : string) :
  well_formed out ->
  In c1 (column_names out) -> In c2 (column_names out) ->
  exists s1 s2,
    output_getitem (Frame out) c1 = Ok (Cells s1)
    /\ output_getitem (Frame out) c2 = Ok (Cells s2)
    /\ List.length s1 = List.length s2.
Proof.
  intros Hwf H1 H2.
  destruct (lookup_present c1 (columns out) H1) as [s1 E1].
  destruct (lookup_present c2 (columns out) H2) as [s2 E2].
  apply getitem_Ok in E1. apply getitem_Ok in E2.
  exists s1, s2. simpl. rewrite E1, E2. repeat split.
  rewrite (well_formed_length out c1 s1 Hwf E1).
  now rewrite (well_formed_length out c2 s2 Hwf E2).
Qed.

Lemma returns_frame parse (strategy : DataProcess) (data : DataFrame)
  (o : Output) :
  strategy <> CorrelationAnalysis_ ->
  fst (process_data parse strategy data) = Ok o ->
  exists out, o = Frame out.
Proof.
  intros Hs Hrun. destruct strategy; cbn [process_data] in Hrun;
    try contradiction.
  - rewrite SalesTrends_unfold in Hrun.
    destruct (getitem data "Date") as [raw|e]; [|discriminate].
    destruct (to_datetime parse raw) as [dates|e]; [|discriminate].
    cbn [fst] in Hrun. unfold trend_after in Hrun.
    destruct (getitem data "Sales") as [sales|e]; [|discriminate].
    cbn [Py.bind] in Hrun.
    destruct (groups_sum _ sales) as [totals|e]; [|discriminate].
    inversion Hrun. eauto.
  - unfold ProfitAnalysisByCountry in Hrun.
    rewrite (pure_result (fun d => groupby_sum d "Country" ["Profit"]))
      in Hrun.
    destruct (groupby_sum _ _ _); inversion Hrun. eauto.
  - unfold ProductPerformance in Hrun.
    rewrite (pure_result
               (fun d => groupby_sum d "Product" ["Sales"; "Profit"]))
      in Hrun.
    destruct (groupby_sum _ _ _); inversion Hrun. eauto.
  - unfold DiscountImpactOnSales in Hrun.
    rewrite (pure_result
               (fun d => getitem_list d ["Discount Band"; "Sales"; "Profit"]))
      in Hrun.
    destruct (getitem_list _ _); inversion Hrun. eauto.
  - rewrite Monthly_unfold in Hrun.
    destruct (getitem data "Date") as [raw|e]; [|discriminate].
    destruct (to_datetime parse raw) as [dates|e]; [|discriminate].
    cbn [fst] in Hrun. unfold monthly_after in Hrun.
    destruct (getitem data "Sales") as [sales|e]; [|discriminate].
    cbn [Py.bind] in Hrun.
    destruct (groups_sum _ sales) as [totals|e]; [|discriminate].
    inversion Hrun. eauto.
  - unfold CountryWiseSalesDistribution in Hrun.
    rewrite (pure_result (fun d => groupby_sum d "Country" ["Sales"]))
      in Hrun.
    destruct (groupby_sum _ _ _); inversion Hrun. eauto.
Qed.

Lemma chart_xy parse (strategy : DataProcess) (data : DataFrame)
  (o : Output) (c1 c2 : string) :
  well_formed data ->
  strategy <> CorrelationAnalysis_ ->
  fst (process_data parse strategy data) = Ok o ->
  In c1 (returned_columns strategy) -> In c2 (returned_columns strategy) ->
  exists s1 s2,
    output_getitem o c1 = Ok (Cells s1)
    /\ output_getitem o c2 = Ok (Cells s2)
    /\ List.length s1 = List.length s2.
Proof.
  intros Hwf Hs Hrun H1 H2.
  destruct (returns_frame parse strategy data o Hs Hrun) as [out ->].
  destruct (output_shape parse strategy data out Hwf Hrun) as [Hout Hnames].
  apply xy_columns; [exact Hout | |]; now rewrite Hnames.
Qed.

(** X12: once the script has computed the six aggregates at start, on a
    well-formed frame, the chart callback returns a graph for each value of
    the chart selector, never the [KeyError] of a column the aggregate
    lacks, and in each trace x and y have the same length; for any other
    value it returns the text "Please select a chart.". *)
Theorem X12_selected_chart parse (data : DataFrame) (g : Globals)
  (chart_value : string) :
  well_formed data ->
  fst (startup parse data) = Ok g ->
  (In chart_value chart_options ->
   exists traces layout,
     display_selected_chart g chart_value = Ok (Graph traces layout)
     /\ traces <> [] /\ Forall balanced traces)
  /\ (~ In chart_value chart_options ->
      display_selected_chart g chart_value
      = Ok (Text "Please select a chart.")).
Proof.
  intros Hwf Hstart. rewrite startup_runs in Hstart.
  unfold independently in Hstart.
  destruct (fst (process_data parse SalesTrendsOverTime_ data))
    as [o1|] eqn:E1; [|discriminate].
  destruct (fst (process_data parse ProfitAnalysisByCountry_ data))
    as [o2|] eqn:E2; [|discriminate].
  destruct (fst (process_data parse ProductPerformance_ data))
    as [o3|] eqn:E3; [|discriminate].
  destruct (fst (process_data parse DiscountImpactOnSales_ data))
    as [o4|] eqn:E4; [|discriminate].
  destruct (fst (process_data parse CountryWiseSalesDistribution_ data))
    as [o5|] eqn:E5; [|discriminate].
  destruct (fst (process_data parse CorrelationAnalysis_ data))
    as [o6|] eqn:E6; [|discriminate].
  cbn [Py.bind] in Hstart. inversion Hstart; subst g. clear Hstart.
  split.
  - intros Hin. unfold chart_options in Hin.
    destruct Hin as [<- | [<- | [<- | [<- | [<- | [<- | []]]]]]];
      unfold display_selected_chart;
      cbn [String.eqb Ascii.eqb Bool.eqb
             sales_trends_data profit_by_country_data
             product_performance_data discount_impact_data
             country_wise_sales_data correlation_analysis_data].
    + destruct (chart_xy parse SalesTrendsOverTime_ data o1
                  "Date" "TotalSales" Hwf) as [x [y [Hx [Hy Hlen]]]];
        [discriminate | exact E1 | simpl; auto | simpl; auto |].
      rewrite Hx, Hy. cbn [Py.bind]. do 2 eexists.
      split; [reflexivity|]. split; [discriminate|].
      repeat constructor. exact Hlen.
    + destruct (chart_xy parse ProfitAnalysisByCountry_ data o2
                  "Country" "Profit" Hwf) as [x [y [Hx [Hy Hlen]]]];
        [discriminate | exact E2 | simpl; auto | simpl; auto |].
      rewrite Hx, Hy. cbn [Py.bind]. do 2 eexists.
      split; [reflexivity|]. split; [discriminate|].
      repeat constructor. exact Hlen.
    + destruct (chart_xy parse ProductPerformance_ data o3
                  "Product" "Sales" Hwf) as [x [y [Hx [Hy Hlen]]]];
        [discriminate | exact E3 | simpl; auto | simpl; auto |].
      destruct (chart_xy parse ProductPerformance_ data o3
                  "Product" "Profit" Hwf) as [x' [y' [Hx' [Hy' Hlen']]]];
        [discriminate | exact E3 | simpl; auto | simpl; auto |].
      rewrite Hx, Hy, Hy'. cbn [Py.bind]. do 2 eexists.
      split; [reflexivity|]. split; [discriminate|].
      rewrite Hx in Hx'. inversion Hx'; subst x'.
      repeat constructor; assumption.
    + destruct (chart_xy parse CountryWiseSalesDistribution_ data o5
                  "Country" "Sales" Hwf) as [x [y [Hx [Hy Hlen]]]];
        [discriminate | exact E5 | simpl; auto | simpl; auto |].
      rewrite Hx, Hy. cbn [Py.bind]. do 2 eexists.
      split; [reflexivity|]. split; [discriminate|].
      repeat constructor. exact Hlen.
    + destruct (chart_xy parse DiscountImpactOnSales_ data o4
                  "Discount Band" "Sales" Hwf) as [x [y [Hx [Hy Hlen]]]];
        [discriminate | exact E4 | simpl; auto | simpl; auto |].
      rewrite Hx, Hy. cbn [Py.bind]. do 2 eexists.
      split; [reflexivity|]. split; [discriminate|].
      repeat constructor. exact Hlen.
    + cbn [process_data] in E6.
      destruct (Correlation_cases data) as [E | [col [_ [_ E]]]];
        rewrite E in E6; [|discriminate].
      inversion E6; subst o6. do 2 eexists.
      split; [reflexivity|]. split; [discriminate|].
      repeat constructor.
  - intros Hout. unfold display_selected_chart.
    assert (Hne : forall v, In v chart_options ->
                    String.eqb chart_value v = false).
    { intros v Hv. apply String.eqb_neq. intros ->. contradiction. }
    rewrite !Hne by (unfold chart_options; simpl; auto 10).
    reflexivity.
Qed.

Lemma startup_financials :
  exists g, fst (startup iso_date financials) = Ok g.
Proof.
  rewrite startup_runs. unfold independently.
  assert (E1 : exists o, fst (process_data iso_date SalesTrendsOverTime_
                                financials) = Ok o)
    by (eexists; vm_compute; reflexivity).
  assert (E2 : exists o, fst (process_data iso_date ProfitAnalysisByCountry_
                                financials) = Ok o)
    by (eexists; vm_compute; reflexivity).
  assert (E3 : exists o, fst (process_data iso_date ProductPerformance_
                                financials) = Ok o)
    by (eexists; vm_compute; reflexivity).
  assert (E4 : exists o, fst (process_data iso_date DiscountImpactOnSales_
                                financials) = Ok o)
    by (eexists; vm_compute; reflexivity).
  assert (E5 : exists o, fst (process_data iso_date
                                CountryWiseSalesDistribution_ financials)
                         = Ok o)
    by (eexists; vm_compute; reflexivity).
  assert (E6 : fst (process_data iso_date CorrelationAnalysis_ financials)
               = Ok (Matrix (corr (normalized_frame financials)))).
  { cbn [process_data]. apply Correlation_run. intros col H. simpl in H.
    repeat (destruct H as [<- | H]; [discriminate|]). destruct H. }
  destruct E1 as [o1 ->], E2 as [o2 ->], E3 as [o3 ->], E4 as [o4 ->],
           E5 as [o5 ->].
  rewrite E6. cbn [Py.bind]. eauto.
Qed.

Lemma X12_selected_chart_witness :
  exists g traces layout,
    fst (startup iso_date financials) = Ok g
    /\ display_selected_chart g "product-performance"
       = Ok (Graph traces layout).
Proof.
  destruct startup_financials as [g Hg].
  assert (Hwf : well_formed financials) by (repeat constructor).
  destruct (proj1 (X12_selected_chart iso_date financials g
                     "product-performance" Hwf Hg))
    as [traces [layout [Hshow _]]].
  - unfold chart_options. simpl. auto.
  - exists g, traces, layout. split; assumption.
Defined.
